(** * Astrotracker: location manager, tracking simulator and observation report

    A shallow embedding of the Python sources
      - [astro_simulator.py]       (class [AstroTrackingSimulator]),
      - [ubicacion.py]             (class [UbicacionManager]),
      - [astrotracker_ubicacion.py] (class [AstroTrackerConUbicacion]),
    with the properties of the specification stated and settled on it.

    Conventions of the embedding.
    - A Python [float] that is finite is a rational number: every finite
      double is one, and the comparisons the code performs ([>], [<]) are
      the comparisons of the rationals.  NaN and the infinities are left out.
    - A Python [dict] is an association list in insertion order.
    - An instance is a record; a method takes the record and returns the new
      record together with its result.  An exception is the message [str(e)];
      code that can raise returns a sum.
    - The reading of the wall clock ([Time.now()], [datetime.now()]) is an
      explicit argument of every method that consults it.
    - astropy is outside the repository: what the code asks of it is collected
      in the class [Astropy], and every definition is parametric in it. *)

From Stdlib Require Import QArith Qround Lqa DecimalString.
From stdpp Require Import gmap strings pretty.

Local Open Scope string_scope.
Local Set Warnings "-register-all".

(** ** Python values *)

(** The values that [json.load] can return and that the location dictionaries
    hold. *)
Inductive PyVal : Type :=
| PyNone
| PyBool (b : bool)
| PyInt (n : Z)
| PyFloat (x : Q)
| PyStr (s : string)
| PyList (xs : list PyVal)
| PyDict (kvs : list (string * PyVal)).

(** [d.get(k)] / [k in d] on an insertion-ordered dictionary. *)
Fixpoint assoc {V : Type} (k : string) (kvs : list (string * V)) : option V :=
  match kvs with
  | [] => None
  | (k', v) :: rest => if String.eqb k k' then Some v else assoc k rest
  end.

(** [bool(v)]: the truth value Python gives to [v] in [if v], [not v] and
    [a and b]. *)
Definition truthy (v : PyVal) : bool :=
  match v with
  | PyNone => false
  | PyBool b => b
  | PyInt n => negb (Z.eqb n 0)
  | PyFloat x => negb (Qeq_bool x 0)
  | PyStr s => negb (String.eqb s "")
  | PyList xs => match xs with [] => false | _ => true end
  | PyDict kvs => match kvs with [] => false | _ => true end
  end.

(** [x > y] on finite floats. *)
Definition Qgtb (x y : Q) : bool := negb (Qle_bool x y).

Definition Exception : Type := string.

(** ** What the code asks of astropy *)

Record AltAzDeg : Type := { alt_deg : Q; az_deg : Q }.

Class Astropy : Type := {
  (** [astropy.coordinates.EarthLocation] *)
  EarthLocation : Type;
  (** [astropy.time.Time] *)
  Time : Type;
  (** [EarthLocation(lat=a * u.deg, lon=b * u.deg, height=c * u.m)] *)
  EarthLocation_new : PyVal -> PyVal -> PyVal -> Exception + EarthLocation;
  (** [Time(timestamp)] *)
  Time_new : PyVal -> Exception + Time;
  (** [t.iso] *)
  Time_iso : Time -> string;
  (** [SkyCoord(ra=ra * u.deg, dec=dec * u.deg, frame='icrs')
        .transform_to(AltAz(obstime=t, location=loc))], read through
      [.alt.deg] and [.az.deg] *)
  star_altaz : Q -> Q -> Time -> EarthLocation -> Exception + AltAzDeg;
  (** [get_sun(t).transform_to(AltAz(obstime=t, location=loc))] *)
  sun_altaz : Time -> EarthLocation -> Exception + AltAzDeg;
  (** [get_moon(t).transform_to(AltAz(obstime=t, location=loc))] *)
  moon_altaz : Time -> EarthLocation -> Exception + AltAzDeg
}.

(** ** ubicacion.py *)

Module Ubicacion.

(** What a path of the file system holds: the JSON document that [json.load]
    reads from it, given as the value [json.load] returns, or text that is
    not JSON.  [json.dump] writes the document of the value it is given: the
    values of [PyVal] are those that the two functions carry into each other
    (string keys, finite numbers, [int] and [float] kept apart). *)
Inductive FileContent : Type :=
| JsonDocument (v : PyVal)
| NotJson.

(** The files, and the paths that [open(archivo, 'w')] refuses. *)
Record FileSystem : Type := {
  files : gmap string FileContent;
  unwritable : gset string
}.

Definition write_file (fs : FileSystem) (archivo : string) (c : FileContent)
  : option FileSystem :=
  if decide (archivo ∈ unwritable fs) then None
  else Some {| files := <[archivo := c]> (files fs);
               unwritable := unwritable fs |}.

(** The answer of a geocoder query: [g.ok], [g.latlng], [g.city], ... *)
Record Geocoded : Type := {
  ok : bool;
  latlng : option (PyVal * PyVal);
  city : PyVal;
  country : PyVal;
  state : PyVal;
  timezone : PyVal;
  address : PyVal;
  provider : PyVal
}.

(** What is asked of a geocoder: its own address (['me']), or a postal
    address. *)
Inductive Query : Type :=
| Me
| Address (direccion : string).

(** The answer of a reverse query: [g.ok], [g.address], and the attributes
    read with [getattr(g, 'postal', '')] and [getattr(g, 'neighborhood', '')]. *)
Record ReverseGeocoded : Type := {
  r_ok : bool;
  r_address : PyVal;
  postal : PyVal;
  neighborhood : PyVal
}.

(** The network at the time of a call.  [geocode p q] is the outcome of
    [geocoder.p(q)], for [p] one of [ip], [ipapi], [freegeoip], [maxmind],
    [arcgis], [here], [bing]; [reverse p lat lon] is the outcome of
    [geocoder.p([lat, lon], method='reverse')]; [isoformat p] is the reading
    [datetime.now().isoformat()] of the clock when the answer of [p] is
    recorded. *)
Record Network : Type := {
  geocode : string -> Query -> Exception + Geocoded;
  reverse : string -> PyVal -> PyVal -> Exception + ReverseGeocoded;
  isoformat : string -> string
}.

(** [type(v).__name__] *)
Definition type_name (v : PyVal) : string :=
  match v with
  | PyNone => "NoneType"
  | PyBool _ => "bool"
  | PyInt _ => "int"
  | PyFloat _ => "float"
  | PyStr _ => "str"
  | PyList _ => "list"
  | PyDict _ => "dict"
  end.

(** The exception of the f-string field [{v:.6f}], if any: numbers, booleans
    included, are formatted; a string has no format code [f]; the other types
    accept no format string. *)
Definition format_6f (v : PyVal) : option Exception :=
  match v with
  | PyBool _ | PyInt _ | PyFloat _ => None
  | PyStr _ => Some "Unknown format code 'f' for object of type 'str'"
  | _ => Some ("unsupported format string passed to " ++ type_name v
               ++ ".__format__")
  end.

(** [d[k] = v] on an insertion-ordered dictionary: the value of a key that
    is there is replaced in place, a new key goes to the end. *)
Fixpoint dict_set (k : string) (v : PyVal) (kvs : list (string * PyVal))
  : list (string * PyVal) :=
  match kvs with
  | [] => [(k, v)]
  | (k', v') :: rest =>
      if String.eqb k k' then (k', v) :: rest
      else (k', v') :: dict_set k v rest
  end.

(** [d.update(new)] *)
Definition dict_update (kvs new : list (string * PyVal))
  : list (string * PyVal) :=
  fold_left (fun d kv => dict_set (fst kv) (snd kv) d) new kvs.

Section Manager.
Context `{AP : Astropy}.

Record UbicacionManager : Type := {
  ubicacion_actual : PyVal;
  earth_location : option EarthLocation
}.

(** [UbicacionManager()] *)
Definition init : UbicacionManager :=
  {| ubicacion_actual := PyNone; earth_location := None |}.

(** The outcome of a method: the instance after the call, and the value it
    returned or the exception it raised. *)
Definition Outcome (A : Type) : Type := UbicacionManager * (Exception + A).

(** [obtener_ubicacion_automatica()].  [g] is the outcome of
    [geocoder.ip('me')] and [now_iso] that of [datetime.now().isoformat()]. *)
Definition obtener_ubicacion_automatica (g : Exception + Geocoded)
    (now_iso : string) (self : UbicacionManager)
  : UbicacionManager * option PyVal :=
  match g with
  | inl _ => (self, None)
  | inr g =>
      if ok g then
        let latitud := match latlng g with Some (a, _) => a | None => PyNone end in
        let longitud := match latlng g with Some (_, b) => b | None => PyNone end in
        let ubicacion :=
          PyDict [ ("latitud", latitud); ("longitud", longitud);
                   ("ciudad", city g); ("pais", country g);
                   ("region", state g); ("timezone", timezone g);
                   ("direccion", address g); ("altitud", PyInt 0);
                   ("timestamp", PyStr now_iso); ("proveedor", provider g) ] in
        if truthy latitud && truthy longitud then
          match EarthLocation_new latitud longitud (PyInt 0) with
          | inl _ =>
              ({| ubicacion_actual := ubicacion;
                  earth_location := earth_location self |}, None)
          | inr loc =>
              ({| ubicacion_actual := ubicacion;
                  earth_location := Some loc |}, Some ubicacion)
          end
        else
          ({| ubicacion_actual := ubicacion;
              earth_location := earth_location self |}, Some ubicacion)
      else (self, None)
  end.

(** [establecer_ubicacion_manual(latitud, longitud, altitud, ciudad, pais)];
    [now_iso] is [datetime.now().isoformat()].  There is no [try]: an
    exception of [EarthLocation] leaves the method after the assignment of
    [self.ubicacion_actual]. *)
Definition establecer_ubicacion_manual (now_iso : string)
    (self : UbicacionManager) (latitud longitud altitud : PyVal)
    (ciudad pais : string) : Outcome PyVal :=
  let ubicacion :=
    PyDict [ ("latitud", latitud); ("longitud", longitud);
             ("ciudad", PyStr ciudad); ("pais", PyStr pais);
             ("region", PyStr ""); ("timezone", PyStr "");
             ("altitud", altitud); ("timestamp", PyStr now_iso) ] in
  match EarthLocation_new latitud longitud altitud with
  | inl e =>
      ({| ubicacion_actual := ubicacion;
          earth_location := earth_location self |}, inl e)
  | inr loc =>
      ({| ubicacion_actual := ubicacion;
          earth_location := Some loc |}, inr ubicacion)
  end.

(** [get_earth_location()] *)
Definition get_earth_location (self : UbicacionManager) : option EarthLocation :=
  earth_location self.

(** [guardar_ubicacion(archivo)] *)
Definition guardar_ubicacion (self : UbicacionManager) (fs : FileSystem)
    (archivo : string) : FileSystem * bool :=
  if truthy (ubicacion_actual self) then
    match write_file fs archivo (JsonDocument (ubicacion_actual self)) with
    | Some fs' => (fs', true)
    | None => (fs, false)
    end
  else (fs, false).

(** [cargar_ubicacion(archivo)].  Every exception is caught and turned into
    the result [None]; those raised after [json.load] leave
    [self.ubicacion_actual] assigned.  A loaded value that is not a
    dictionary has no [get] ([AttributeError]). *)
Definition cargar_ubicacion (self : UbicacionManager) (fs : FileSystem)
    (archivo : string) : UbicacionManager * option PyVal :=
  match files fs !! archivo with
  | None => (self, None)
  | Some NotJson => (self, None)
  | Some (JsonDocument ubicacion) =>
      let loaded := {| ubicacion_actual := ubicacion;
                       earth_location := earth_location self |} in
      match ubicacion with
      | PyDict kvs =>
          let latitud := default PyNone (assoc "latitud" kvs) in
          let longitud := default PyNone (assoc "longitud" kvs) in
          if truthy latitud && truthy longitud then
            let altitud := default (PyInt 0) (assoc "altitud" kvs) in
            match EarthLocation_new latitud longitud altitud with
            | inl _ => (loaded, None)
            | inr loc =>
                ({| ubicacion_actual := ubicacion;
                    earth_location := Some loc |}, Some ubicacion)
            end
          else (loaded, Some ubicacion)
      | _ => (loaded, None)
      end
  end.

(** The loop of [obtener_ubicacion_alternativa] over the providers still to
    be tried.  An exception inside the [try], that of [EarthLocation]
    included, passes to the next provider; the assignment of
    [self.ubicacion_actual] made before it stays. *)
Fixpoint obtener_ubicacion_alternativa_loop (net : Network)
    (proveedores : list string) (self : UbicacionManager)
  : UbicacionManager * option PyVal :=
  match proveedores with
  | [] => (self, None)
  | proveedor :: rest =>
      match geocode net proveedor Me with
      | inl _ => obtener_ubicacion_alternativa_loop net rest self
      | inr g =>
          if ok g then
            let latitud :=
              match latlng g with Some (a, _) => a | None => PyNone end in
            let longitud :=
              match latlng g with Some (_, b) => b | None => PyNone end in
            let ubicacion :=
              PyDict [ ("latitud", latitud); ("longitud", longitud);
                       ("ciudad", city g); ("pais", country g);
                       ("region", state g); ("timezone", timezone g);
                       ("direccion", address g); ("altitud", PyInt 0);
                       ("timestamp", PyStr (isoformat net proveedor));
                       ("proveedor", PyStr proveedor) ] in
            if truthy latitud && truthy longitud then
              match EarthLocation_new latitud longitud (PyInt 0) with
              | inl _ =>
                  obtener_ubicacion_alternativa_loop net rest
                    {| ubicacion_actual := ubicacion;
                       earth_location := earth_location self |}
              | inr loc =>
                  ({| ubicacion_actual := ubicacion;
                      earth_location := Some loc |}, Some ubicacion)
              end
            else
              ({| ubicacion_actual := ubicacion;
                  earth_location := earth_location self |}, Some ubicacion)
          else obtener_ubicacion_alternativa_loop net rest self
      end
  end.

(** [obtener_ubicacion_alternativa()] *)
Definition obtener_ubicacion_alternativa (net : Network) (self : UbicacionManager)
  : UbicacionManager * option PyVal :=
  let proveedores := ["ipapi"; "freegeoip"; "maxmind"] in
  obtener_ubicacion_alternativa_loop net proveedores self.

(** [obtener_ubicacion(intentar_automatico)].  The result [None] stands for
    Python's [None], which is also what the [else] branch returns for an
    instance without location. *)
Definition obtener_ubicacion (net : Network) (self : UbicacionManager)
    (intentar_automatico : bool) : UbicacionManager * option PyVal :=
  if intentar_automatico then
    match obtener_ubicacion_automatica (geocode net "ip" Me)
            (isoformat net "ip") self with
    | (self', None) => obtener_ubicacion_alternativa net self'
    | (self', Some ubicacion) => (self', Some ubicacion)
    end
  else
    (self, match ubicacion_actual self with
           | PyNone => None
           | ubicacion => Some ubicacion
           end).

(** The loop of [obtener_ubicacion_por_direccion] over the providers still to
    be tried. *)
Fixpoint obtener_ubicacion_por_direccion_loop (net : Network)
    (direccion : string) (proveedores_geocoding : list string)
    (self : UbicacionManager) : UbicacionManager * option PyVal :=
  match proveedores_geocoding with
  | [] => (self, None)
  | proveedor_nombre :: rest =>
      match geocode net proveedor_nombre (Address direccion) with
      | inl _ => obtener_ubicacion_por_direccion_loop net direccion rest self
      | inr g =>
          match ok g, latlng g with
          | true, Some (latitud, longitud) =>
              let ubicacion :=
                PyDict [ ("latitud", latitud); ("longitud", longitud);
                         ("ciudad", city g); ("pais", country g);
                         ("region", state g); ("timezone", PyStr "");
                         ("direccion", address g); ("altitud", PyInt 0);
                         ("timestamp", PyStr (isoformat net proveedor_nombre));
                         ("proveedor", PyStr proveedor_nombre) ] in
              match EarthLocation_new latitud longitud (PyInt 0) with
              | inl _ =>
                  obtener_ubicacion_por_direccion_loop net direccion rest
                    {| ubicacion_actual := ubicacion;
                       earth_location := earth_location self |}
              | inr loc =>
                  ({| ubicacion_actual := ubicacion;
                      earth_location := Some loc |}, Some ubicacion)
              end
          | _, _ => obtener_ubicacion_por_direccion_loop net direccion rest self
          end
      end
  end.

(** [obtener_ubicacion_por_direccion(direccion)] *)
Definition obtener_ubicacion_por_direccion (net : Network) (direccion : string)
    (self : UbicacionManager) : UbicacionManager * option PyVal :=
  let proveedores_geocoding := ["arcgis"; "here"; "bing"] in
  obtener_ubicacion_por_direccion_loop net direccion proveedores_geocoding self.

(** [imprimir_ubicacion()], for what it raises: the text it prints is left
    out.  The fields are read in the order of the [print] calls. *)
Definition imprimir_ubicacion (self : UbicacionManager) : Exception + unit :=
  if truthy (ubicacion_actual self) then
    match ubicacion_actual self with
    | PyDict kvs =>
        match assoc "latitud" kvs with
        | None => inl "'latitud'"
        | Some latitud =>
            match format_6f latitud with
            | Some e => inl e
            | None =>
                match assoc "longitud" kvs with
                | None => inl "'longitud'"
                | Some longitud =>
                    match format_6f longitud with
                    | Some e => inl e
                    | None =>
                        match assoc "altitud" kvs with
                        | None => inl "'altitud'"
                        | Some _ =>
                            match assoc "timestamp" kvs with
                            | None => inl "'timestamp'"
                            | Some _ => inr tt
                            end
                        end
                    end
                end
            end
        end
    | v => inl ("'" ++ type_name v ++ "' object has no attribute 'get'")
    end
  else inr tt.

(** The loop of [obtener_informacion_detallada] over the reverse providers
    still to be tried: the first that answers [ok], with its answer. *)
Fixpoint proveedores_reverse_loop (net : Network) (lat lon : PyVal)
    (proveedores : list string) : option (string * ReverseGeocoded) :=
  match proveedores with
  | [] => None
  | proveedor :: rest =>
      match reverse net proveedor lat lon with
      | inl _ => proveedores_reverse_loop net lat lon rest
      | inr g =>
          if r_ok g then Some (proveedor, g)
          else proveedores_reverse_loop net lat lon rest
      end
  end.

(** [obtener_informacion_detallada()].  The value returned is
    [self.ubicacion_actual], [PyNone] for [None].  The test
    [self.ubicacion_actual['latitud']] stands before the [try]: its
    [KeyError] leaves the method, and so does its [TypeError] on a value that
    is no dictionary, whose text is [index_error v]; the [KeyError] of
    ['longitud'] is caught. *)
Definition obtener_informacion_detallada (index_error : PyVal -> Exception)
    (net : Network) (self : UbicacionManager) : Outcome PyVal :=
  let self :=
    if truthy (ubicacion_actual self) then self
    else fst (obtener_ubicacion net self true) in
  if truthy (ubicacion_actual self) then
    match ubicacion_actual self with
    | PyDict kvs =>
        match assoc "latitud" kvs with
        | None => (self, inl "'latitud'")
        | Some lat =>
            if truthy lat then
              match assoc "longitud" kvs with
              | None => (self, inr (ubicacion_actual self))
              | Some lon =>
                  let proveedores_reverse := ["arcgis"; "here"] in
                  match proveedores_reverse_loop net lat lon
                          proveedores_reverse with
                  | Some (proveedor, g) =>
                      let ubicacion :=
                        PyDict
                          (dict_update kvs
                             [ ("direccion_completa", r_address g);
                               ("codigo_postal", postal g);
                               ("barrio", neighborhood g);
                               ("proveedor_detalle", PyStr proveedor) ]) in
                      ({| ubicacion_actual := ubicacion;
                          earth_location := earth_location self |},
                       inr ubicacion)
                  | None => (self, inr (ubicacion_actual self))
                  end
              end
            else (self, inr (ubicacion_actual self))
        end
    | v => (self, inl (index_error v))
    end
  else (self, inr (ubicacion_actual self)).

End Manager.
End Ubicacion.

(** ** astro_simulator.py *)

Module AstroSimulator.

Record CatalogEntry : Type := { ra : Q; dec : Q; magnitude : Q }.

(** The table built by [__init__]. *)
Definition catalog0 : list (string * CatalogEntry) :=
  [ ("Sirius",     {| ra := 101.287; dec := -16.716; magnitude := -1.46 |});
    ("Vega",       {| ra := 279.234; dec := 38.784;  magnitude := 0.03 |});
    ("Polaris",    {| ra := 37.946;  dec := 89.264;  magnitude := 1.97 |});
    ("Betelgeuse", {| ra := 88.793;  dec := 7.407;   magnitude := 0.50 |});
    ("Rigel",      {| ra := 78.634;  dec := -8.202;  magnitude := 0.13 |});
    ("Aldebaran",  {| ra := 68.980;  dec := 16.509;  magnitude := 0.85 |});
    ("Capella",    {| ra := 79.172;  dec := 45.998;  magnitude := 0.08 |});
    ("Arcturus",   {| ra := 213.915; dec := 19.182;  magnitude := -0.05 |});
    ("Antares",    {| ra := 247.352; dec := -26.432; magnitude := 1.09 |}) ]%Q.

Section Simulator.
Context `{AP : Astropy}.

Record AstroTrackingSimulator : Type := {
  earth_location : option EarthLocation;
  target_object : option string;
  tracking_active : bool;
  catalog : list (string * CatalogEntry)
}.

(** [AstroTrackingSimulator(earth_location)] *)
Definition init (loc : option EarthLocation) : AstroTrackingSimulator :=
  {| earth_location := loc; target_object := None;
     tracking_active := false; catalog := catalog0 |}.

Definition set_target (self : AstroTrackingSimulator) (target_name : string)
  : AstroTrackingSimulator * bool :=
  match assoc target_name (catalog self) with
  | Some _ =>
      ({| earth_location := earth_location self;
          target_object := Some target_name;
          tracking_active := true;
          catalog := catalog self |}, true)
  | None => (self, false)
  end.

(** The instance after the calls [set_target(n)] for the names [n] of a
    list, in order. *)
Definition set_targets (self : AstroTrackingSimulator) (names : list string)
  : AstroTrackingSimulator :=
  fold_left (fun self target_name => fst (set_target self target_name))
    names self.

(** [list(self.catalog.keys())] *)
Definition get_catalog_objects (self : AstroTrackingSimulator) : list string :=
  map fst (catalog self).

(** The dictionary [get_target_coordinates] returns when the computation
    succeeds, and the one of its [except] branch. *)
Record Coordinates : Type := {
  name : string;
  altitud : Q;
  azimut : Q;
  c_magnitude : Q;
  is_visible : bool;
  status : string;
  timestamp : string
}.

Inductive TargetCoordinates : Type :=
| CoordsOk (c : Coordinates)
| CoordsError (name : string) (error : Exception) (status : string).

(** [get_target_coordinates(timestamp)].  [now] is what [Time.now()] returns
    at the call; [timestamp = None] is the omitted argument.  The result
    [None] is Python's [None].  The guard [not self.target_object] holds for
    [None] and for the empty string; [not self.earth_location] for [None]. *)
Definition get_target_coordinates (now : Time) (self : AstroTrackingSimulator)
    (timestamp : option PyVal) : option TargetCoordinates :=
  match target_object self, earth_location self with
  | Some target, Some loc =>
      if String.eqb target "" then None else
      let failed e := Some (CoordsError target e "Error en cálculo") in
      let observing_time :=
        match timestamp with
        | None => inr now
        | Some ts => Time_new ts
        end in
      match observing_time with
      | inl e => failed e
      | inr observing_time =>
          match assoc target (catalog self) with
          | None => failed ("'" ++ target ++ "'")
          | Some target_data =>
              match star_altaz (ra target_data) (dec target_data)
                               observing_time loc with
              | inl e => failed e
              | inr target_altaz =>
                  let is_visible := Qgtb (alt_deg target_altaz) 0 in
                  let visibility_status :=
                    if is_visible then "Visible" else "Bajo el horizonte" in
                  Some (CoordsOk
                    {| name := target;
                       altitud := alt_deg target_altaz;
                       azimut := az_deg target_altaz;
                       c_magnitude := magnitude target_data;
                       is_visible := is_visible;
                       status := visibility_status;
                       timestamp := Time_iso observing_time |})
              end
          end
      end
  | _, _ => None
  end.

(** The [sun] and [moon] entries of the dictionary of [get_sun_moon_info]. *)
Record Body : Type := { b_altitud : Q; b_azimut : Q; visible : bool }.

Record SunMoon : Type := {
  sun : Body;
  moon : Body;
  day_phase : string;
  observing_conditions : string
}.

Inductive SunMoonInfo : Type :=
| InfoOk (i : SunMoon)
| InfoError (error : Exception) (status : string).

(** The [if]/[elif] chain of [get_sun_moon_info] on the solar altitude. *)
Definition classify_day_phase (sun_alt : Q) : string :=
  if Qgtb sun_alt 6 then "Día"
  else if Qgtb sun_alt (-6) then "Crepúsculo"
  else if Qgtb sun_alt (-12) then "Crepúsculo náutico"
  else if Qgtb sun_alt (-18) then "Crepúsculo astronómico"
  else "Noche".

(** [get_sun_moon_info()]; [now] is what [Time.now()] returns at the call. *)
Definition get_sun_moon_info (now : Time) (self : AstroTrackingSimulator)
  : option SunMoonInfo :=
  match earth_location self with
  | None => None
  | Some loc =>
      let failed e := Some (InfoError e "Error calculando Sol/Luna") in
      let observing_time := now in
      match sun_altaz observing_time loc with
      | inl e => failed e
      | inr sun_altaz =>
          match moon_altaz observing_time loc with
          | inl e => failed e
          | inr moon_altaz =>
              let sun_alt := alt_deg sun_altaz in
              let day_phase := classify_day_phase sun_alt in
              Some (InfoOk
                {| sun := {| b_altitud := sun_alt;
                             b_azimut := az_deg sun_altaz;
                             visible := Qgtb sun_alt 0 |};
                   moon := {| b_altitud := alt_deg moon_altaz;
                              b_azimut := az_deg moon_altaz;
                              visible := Qgtb (alt_deg moon_altaz) 0 |};
                   day_phase := day_phase;
                   observing_conditions :=
                     if String.eqb day_phase "Noche" then "Good" else "Poor" |})
          end
      end
  end.

(** The dictionary of [calculate_tracking_rates]. *)
Record TrackingRates : Type := { ra_rate : Q; dec_rate : Q; units : string }.

(** [calculate_tracking_rates()] *)
Definition calculate_tracking_rates (self : AstroTrackingSimulator)
  : option TrackingRates :=
  if negb (tracking_active self) then None
  else
    let sidereal_rate := 15.0%Q in
    Some {| ra_rate := sidereal_rate; dec_rate := 0.0%Q;
            units := "grados/hora" |}.

(** The dictionary of [simulate_telescope_position]. *)
Record TelescopePosition : Type := {
  telescope_alt : Q;
  telescope_az : Q;
  tracking_error_alt : Q;
  tracking_error_az : Q;
  t_status : string
}.

(** [simulate_telescope_position(target_coords)].  [draw_alt] and [draw_az]
    are the numbers that the two calls of
    [random.uniform(-error_range, error_range)] return, in that order, and
    [float_add] is the sum of two floats.  A dictionary of
    [get_target_coordinates] is never empty, so that [not target_coords]
    holds for [None] alone. *)
Definition simulate_telescope_position (float_add : Q -> Q -> Q)
    (draw_alt draw_az : Q) (target_coords : option TargetCoordinates)
  : TelescopePosition :=
  match target_coords with
  | Some (CoordsOk c) =>
      let tracking_error_alt := draw_alt in
      let tracking_error_az := draw_az in
      let telescope_alt := float_add (altitud c) tracking_error_alt in
      let telescope_az := float_add (azimut c) tracking_error_az in
      {| telescope_alt := telescope_alt;
         telescope_az := telescope_az;
         tracking_error_alt := tracking_error_alt;
         tracking_error_az := tracking_error_az;
         t_status := "Tracking active" |}
  | _ =>
      {| telescope_alt := 0.0; telescope_az := 0.0;
         tracking_error_alt := 0.0; tracking_error_az := 0.0;
         t_status := "No tracking" |}%Q
  end.

(** [create_simulator(ubicacion_mgr)] *)
Definition create_simulator (ubicacion_mgr : Ubicacion.UbicacionManager)
  : AstroTrackingSimulator :=
  let earth_location := Ubicacion.get_earth_location ubicacion_mgr in
  init earth_location.

End Simulator.


End AstroSimulator.

(** ** astrotracker_ubicacion.py *)

Module Tracker.

Section Tracker.
Context `{AP : Astropy}.

Record AstroTrackerConUbicacion : Type := {
  ubicacion_manager : Ubicacion.UbicacionManager;
  earth_location : option EarthLocation
}.

(** The dictionary of [calcular_posicion_sol] and [calcular_posicion_luna]. *)
Record Posicion : Type := { elevacion : Q; azimuth : Q; tiempo : string }.

(** [calcular_posicion_sol(tiempo)]; [now] is [Time.now()] and
    [tiempo = None] the omitted argument.  The methods of this class have no
    [try]: an exception of astropy leaves them. *)
Definition calcular_posicion_sol (now : Time) (self : AstroTrackerConUbicacion)
    (tiempo : option Time) : Exception + option Posicion :=
  match earth_location self with
  | None => inr None
  | Some loc =>
      let tiempo := match tiempo with None => now | Some t => t end in
      match sun_altaz tiempo loc with
      | inl e => inl e
      | inr sun_altaz =>
          inr (Some {| elevacion := alt_deg sun_altaz;
                       azimuth := az_deg sun_altaz;
                       tiempo := Time_iso tiempo |})
      end
  end.

(** [calcular_posicion_luna(tiempo)] *)
Definition calcular_posicion_luna (now : Time) (self : AstroTrackerConUbicacion)
    (tiempo : option Time) : Exception + option Posicion :=
  match earth_location self with
  | None => inr None
  | Some loc =>
      let tiempo := match tiempo with None => now | Some t => t end in
      match moon_altaz tiempo loc with
      | inl e => inl e
      | inr moon_altaz =>
          inr (Some {| elevacion := alt_deg moon_altaz;
                       azimuth := az_deg moon_altaz;
                       tiempo := Time_iso tiempo |})
      end
  end.



(** [not v] for the result [v] of a method that returns a dictionary or
    [None]. *)
Definition falsy (v : option PyVal) : bool :=
  match v with
  | None => true
  | Some v => negb (truthy v)
  end.

(** [inicializar_ubicacion()], on the file system [fs] and the network [net];
    both methods of the manager take their default path.  The result is the
    instance and the file system after the call, with the value returned or
    the exception that [imprimir_ubicacion] raised. *)
Definition inicializar_ubicacion (net : Ubicacion.Network)
    (fs : Ubicacion.FileSystem) (self : AstroTrackerConUbicacion)
  : AstroTrackerConUbicacion * Ubicacion.FileSystem * (Exception + bool) :=
  let archivo := "ubicacion_config.json" in
  let finish mgr fs :=
    let self' :=
      {| ubicacion_manager := mgr;
         earth_location := Ubicacion.get_earth_location mgr |} in
    match Ubicacion.imprimir_ubicacion mgr with
    | inl e => (self', fs, inl e)
    | inr _ => (self', fs, inr true)
    end in
  let '(mgr, ubicacion_guardada) :=
    Ubicacion.cargar_ubicacion (ubicacion_manager self) fs archivo in
  if falsy ubicacion_guardada then
    let '(mgr, ubicacion) := Ubicacion.obtener_ubicacion net mgr true in
    if falsy ubicacion then
      ({| ubicacion_manager := mgr; earth_location := earth_location self |},
       fs, inr false)
    else
      let '(fs, _) := Ubicacion.guardar_ubicacion mgr fs archivo in
      finish mgr fs
  else finish mgr fs.

(** [AstroTrackerConUbicacion()]: the constructor runs
    [inicializar_ubicacion] on a fresh manager and drops its result. *)
Definition new (net : Ubicacion.Network) (fs : Ubicacion.FileSystem)
  : AstroTrackerConUbicacion * Ubicacion.FileSystem * (Exception + unit) :=
  let '(self, fs, r) :=
    inicializar_ubicacion net fs
      {| ubicacion_manager := Ubicacion.init; earth_location := None |} in
  (self, fs, match r with inl e => inl e | inr _ => inr tt end).




End Tracker.
End Tracker.

(** ** comunicacion.py *)

Module Comunicacion.

Definition BAUD : Z := 115200.

(** The line feed of ["\n"]. *)
Definition LF : string := String (Ascii.ascii_of_nat 10) "".

(** [" ".join(partes)] *)
Fixpoint join (partes : list string) : string :=
  match partes with
  | [] => ""
  | [parte] => parte
  | parte :: rest => parte ++ " " ++ join rest
  end.

(** Whether [s.encode("ascii")] succeeds: every code unit is below 128. *)
Fixpoint is_ascii (s : string) : bool :=
  match s with
  | EmptyString => true
  | String c rest => (Ascii.nat_of_ascii c <? 128)%nat && is_ascii rest
  end.

(** A [serial.Serial] object: whether it is open, and the lines written to
    it so far, oldest first. *)
Record Serial : Type := {
  port : string;
  baudrate : Z;
  is_open : bool;
  written : list string
}.

(** What the port does with one line: [write] raises, leaving nothing
    written; or the line is written and [readline] raises; or the line is
    written and [resp] is [readline().decode(errors="ignore").strip()]. *)
Inductive PortIO : Type :=
| WriteError (e : Exception)
| ReadError (e : Exception)
| Response (resp : string).

(** A call of [messagebox.showwarning] or [messagebox.showerror]. *)
Inductive Dialog : Type :=
| ShowWarning (title message : string)
| ShowError (title message : string).

Section App.
(** [int(s)] on a string, [None] for [ValueError]. *)
Variable int_of_str : string -> option Z.
(** [str(e)] for the [UnicodeEncodeError] of [s.encode("ascii")]. *)
Variable ascii_error : string -> Exception.

(** The fields of the application that its methods read and write: the
    port, the state of the six jog buttons and of the two connection buttons
    ([true] for ["normal"]), the text of the entries and of the port box, the
    text of the log, and the dialogs shown so far, oldest first. *)
Record CNCApp : Type := {
  ser : option Serial;
  jog_buttons : bool;
  btn_con : bool;
  btn_des : bool;
  var_paso : string;
  var_vel : string;
  var_acel : string;
  cmb_port : string;
  txt_log : string;
  dialogs : list Dialog
}.

(** The fields after [__init__]. *)
Definition init : CNCApp :=
  {| ser := None; jog_buttons := false; btn_con := true; btn_des := false;
     var_paso := "200"; var_vel := "1000"; var_acel := "400";
     cmb_port := ""; txt_log := ""; dialogs := [] |}.

Definition show (d : Dialog) (self : CNCApp) : CNCApp :=
  {| ser := ser self; jog_buttons := jog_buttons self;
     btn_con := btn_con self; btn_des := btn_des self;
     var_paso := var_paso self; var_vel := var_vel self;
     var_acel := var_acel self; cmb_port := cmb_port self;
     txt_log := txt_log self; dialogs := dialogs self ++ [d] |}.

(** [log(texto)] *)
Definition log (self : CNCApp) (texto : string) : CNCApp :=
  {| ser := ser self; jog_buttons := jog_buttons self;
     btn_con := btn_con self; btn_des := btn_des self;
     var_paso := var_paso self; var_vel := var_vel self;
     var_acel := var_acel self; cmb_port := cmb_port self;
     txt_log := txt_log self ++ texto ++ LF; dialogs := dialogs self |}.

Definition set_ser (self : CNCApp) (p : option Serial) : CNCApp :=
  {| ser := p; jog_buttons := jog_buttons self;
     btn_con := btn_con self; btn_des := btn_des self;
     var_paso := var_paso self; var_vel := var_vel self;
     var_acel := var_acel self; cmb_port := cmb_port self;
     txt_log := txt_log self; dialogs := dialogs self |}.

(** [habilitar_controles(estado)] followed by the two [config] calls on the
    connection buttons. *)
Definition set_buttons (self : CNCApp) (jog con des : bool) : CNCApp :=
  {| ser := ser self; jog_buttons := jog;
     btn_con := con; btn_des := des;
     var_paso := var_paso self; var_vel := var_vel self;
     var_acel := var_acel self; cmb_port := cmb_port self;
     txt_log := txt_log self; dialogs := dialogs self |}.

(** Whether the application holds a port that is open. *)
Definition connected (self : CNCApp) : bool :=
  match ser self with
  | Some p => is_open p
  | None => false
  end.

(** The lines written so far to the port that the application holds. *)
Definition wire (self : CNCApp) : list string :=
  match ser self with
  | Some p => written p
  | None => []
  end.

(** [self'] has the lines of [self] on the wire and at most one more, which
    is ASCII and ends with a line feed. *)
Definition at_most_one_line (self self' : CNCApp) : Prop :=
  exists suffix,
    wire self' = (wire self ++ suffix)%list /\
    (length suffix <= 1)%nat /\
    Forall (fun l => is_ascii l = true /\ exists body, l = body ++ LF) suffix.

(** [conectar()]; [opened] is the outcome of
    [serial.Serial(puerto, BAUD, timeout=1)]. *)
Definition conectar (opened : Exception + unit) (self : CNCApp) : CNCApp :=
  let puerto := cmb_port self in
  if String.eqb puerto "" then
    show (ShowWarning "Atención" "Elegí un puerto primero.") self
  else
    match opened with
    | inr _ =>
        let self := set_ser self (Some {| port := puerto; baudrate := BAUD;
                                          is_open := true; written := [] |}) in
        let self := set_buttons self true false true in
        log self ("Conectado a " ++ puerto ++ " @ " ++ pretty BAUD ++ " baud")
    | inl e =>
        show (ShowError "Error" ("No se pudo abrir el puerto:" ++ LF ++ e)) self
    end.

(** [desconectar()]; [closed] is the outcome of [self.ser.close()], when it
    is called. *)
Definition desconectar (closed : Exception + unit) (self : CNCApp) : CNCApp :=
  let finish self :=
    let self := set_buttons self false true false in
    log self "Desconectado" in
  match ser self with
  | Some p =>
      if is_open p then
        match closed with
        | inr _ =>
            finish (set_ser self (Some {| port := port p;
                                          baudrate := baudrate p;
                                          is_open := false;
                                          written := written p |}))
        | inl e =>
            show (ShowError "Error" ("Al cerrar el puerto:" ++ LF ++ e)) self
        end
      else finish self
  | None => finish self
  end.

(** [enviar_linea(linea)]; [io] is what the port does with the line. *)
Definition enviar_linea (io : PortIO) (self : CNCApp) (linea : string) : CNCApp :=
  let closed :=
    show (ShowWarning "Conexión" "No hay puerto abierto.") self in
  let failed e :=
    ShowError "Error" ("Envío/recepción falló:" ++ LF ++ e) in
  match ser self with
  | None => closed
  | Some p =>
      if negb (is_open p) then closed
      else if negb (is_ascii (linea ++ LF)) then
        show (failed (ascii_error (linea ++ LF))) self
      else
        match io with
        | WriteError e => show (failed e) self
        | ReadError e =>
            let sent := {| port := port p; baudrate := baudrate p;
                           is_open := true;
                           written := written p ++ [linea ++ LF] |} in
            show (failed e) (log (set_ser self (Some sent)) (">>> " ++ linea))
        | Response resp =>
            let sent := {| port := port p; baudrate := baudrate p;
                           is_open := true;
                           written := written p ++ [linea ++ LF] |} in
            let self := log (set_ser self (Some sent)) (">>> " ++ linea) in
            if negb (String.eqb resp "") then log self ("<<< " ++ resp)
            else self
        end
  end.

(** The list [partes] that [mover] builds for the displacements [dx], [dy]
    and [dz]. *)
Definition partes (dx dy dz : Z) : list string :=
  ((if (dx =? 0)%Z then [] else [("X" ++ pretty dx)%string]) ++
   (if (dy =? 0)%Z then [] else [("Y" ++ pretty dy)%string]) ++
   (if (dz =? 0)%Z then [] else [("Z" ++ pretty dz)%string]))%list.

(** [enviar_parametros()] *)
Definition enviar_parametros (io : PortIO) (self : CNCApp) : CNCApp :=
  let rejected :=
    show (ShowWarning "Parámetros"
            "Velocidad y aceleración deben ser enteros positivos.") self in
  match int_of_str (var_vel self) with
  | None => rejected
  | Some v =>
      match int_of_str (var_acel self) with
      | None => rejected
      | Some a =>
          if (v <=? 0)%Z || (a <=? 0)%Z then rejected
          else enviar_linea io self ("S " ++ pretty v ++ " " ++ pretty a)
      end
  end.

(** [mover(sx, sy, sz)] *)
Definition mover (io : PortIO) (self : CNCApp) (sx sy sz : Z) : CNCApp :=
  let rejected :=
    show (ShowWarning "Parámetros"
            "El tamaño de paso debe ser un entero positivo.") self in
  match int_of_str (var_paso self) with
  | None => rejected
  | Some paso =>
      if (paso <=? 0)%Z then rejected
      else
        let dx := (sx * paso)%Z in
        let dy := (sy * paso)%Z in
        let dz := (sz * paso)%Z in
        let partes :=
          ((if (dx =? 0)%Z then [] else [("X" ++ pretty dx)%string]) ++
           (if (dy =? 0)%Z then [] else [("Y" ++ pretty dy)%string]) ++
           (if (dz =? 0)%Z then [] else [("Z" ++ pretty dz)%string]))%list in
        match partes with
        | [] => self
        | _ => enviar_linea io self ("M " ++ join partes)
        end
  end.

End App.
End Comunicacion.

(** ** AppPC/astrotracker_advanced_gui.py *)

Module AdvancedGui.

(** [l[i]]: a negative index counts from the end; outside the list it is an
    [IndexError]. *)
Definition py_index {A : Type} (l : list A) (i : Z) : option A :=
  let n := Z.of_nat (length l) in
  if (0 <=? i)%Z then l !! Z.to_nat i
  else if (- n <=? i)%Z then l !! Z.to_nat (n + i)
  else None.

(** The keys of the target selector. *)
Inductive Key : Type := K_UP | K_DOWN | K_RETURN | K_SPACE.

(** A row of the target selector: the index of the target, the text
    rendered, and whether the highlight rectangle is drawn behind it. *)
Record Row : Type := { target_index : Z; text : string; highlight : bool }.

(** What the environment supplies during one update: the text that
    [get_local_sidereal_time] returns, the readings of [Time.now()] inside
    [get_sun_moon_info] and inside [get_target_coordinates], the two numbers
    drawn by [random.uniform], the sum of floats, and the reading of
    [datetime.now()]. *)
Record Tick `{AP : Astropy} : Type := {
  lst : string;
  now_info : Time;
  now_coords : Time;
  draw_alt : Q;
  draw_az : Q;
  float_add : Q -> Q -> Q;
  now_update : string
}.

Section Gui.
Context `{AP : Astropy}.

(** The fields of the window that the target selector and the periodic
    update read and write. *)
Record AdvancedAstrotrackerGUI : Type := {
  simulator : option AstroSimulator.AstroTrackingSimulator;
  earth_location : option EarthLocation;
  tracking_status : string;
  last_update : option string;
  current_target : option string;
  target_coords : option AstroSimulator.TargetCoordinates;
  telescope_pos : option AstroSimulator.TelescopePosition;
  selected_target_index : Z;
  available_targets : list string;
  sun_moon_info : option AstroSimulator.SunMoonInfo;
  sidereal_time : string
}.

(** The fields as [__init__] sets them, before [initialize_system]. *)
Definition init : AdvancedAstrotrackerGUI :=
  {| simulator := None; earth_location := None;
     tracking_status := "Inactivo"; last_update := None;
     current_target := None; target_coords := None; telescope_pos := None;
     selected_target_index := 0; available_targets := [];
     sun_moon_info := None; sidereal_time := "00:00:00" |}.

Definition select (self : AdvancedAstrotrackerGUI) (i : Z)
  : AdvancedAstrotrackerGUI :=
  {| simulator := simulator self; earth_location := earth_location self;
     tracking_status := tracking_status self;
     last_update := last_update self;
     current_target := current_target self;
     target_coords := target_coords self;
     telescope_pos := telescope_pos self;
     selected_target_index := i;
     available_targets := available_targets self;
     sun_moon_info := sun_moon_info self;
     sidereal_time := sidereal_time self |}.

(** The branch of [handle_events] for a [KEYDOWN] event of one of the four
    keys.  An [IndexError] of [available_targets[selected_target_index]] is
    not caught by the method. *)
Definition key_down (self : AdvancedAstrotrackerGUI) (key : Key)
  : Exception + AdvancedAstrotrackerGUI :=
  let n := Z.of_nat (length (available_targets self)) in
  match key with
  | K_UP =>
      match available_targets self with
      | [] => inr self
      | _ => inr (select self ((selected_target_index self - 1) mod n))
      end
  | K_DOWN =>
      match available_targets self with
      | [] => inr self
      | _ => inr (select self ((selected_target_index self + 1) mod n))
      end
  | K_RETURN =>
      match available_targets self, simulator self with
      | _ :: _, Some sim =>
          match py_index (available_targets self)
                  (selected_target_index self) with
          | None => inl "list index out of range"
          | Some target_name =>
              let '(sim, found) := AstroSimulator.set_target sim target_name in
              inr {| simulator := Some sim;
                     earth_location := earth_location self;
                     tracking_status :=
                       if found
                       then "Iniciando seguimiento de " ++ target_name
                       else tracking_status self;
                     last_update := last_update self;
                     current_target :=
                       if found then Some target_name
                       else current_target self;
                     target_coords := target_coords self;
                     telescope_pos := telescope_pos self;
                     selected_target_index := selected_target_index self;
                     available_targets := available_targets self;
                     sun_moon_info := sun_moon_info self;
                     sidereal_time := sidereal_time self |}
          end
      | _, _ => inr self
      end
  | K_SPACE =>
      match simulator self with
      | None => inr self
      | Some sim =>
          inr {| simulator :=
                   Some {| AstroSimulator.earth_location :=
                             AstroSimulator.earth_location sim;
                           AstroSimulator.target_object :=
                             AstroSimulator.target_object sim;
                           AstroSimulator.tracking_active := false;
                           AstroSimulator.catalog :=
                             AstroSimulator.catalog sim |};
                 earth_location := earth_location self;
                 tracking_status := "Seguimiento detenido";
                 last_update := last_update self;
                 current_target := None;
                 target_coords := None;
                 telescope_pos := None;
                 selected_target_index := selected_target_index self;
                 available_targets := available_targets self;
                 sun_moon_info := sun_moon_info self;
                 sidereal_time := sidereal_time self |}
      end
  end.

(** The rows that the loop of [draw_target_selector] draws from
    [start_index], [i] rows being still allowed. *)
Fixpoint rows_from (self : AdvancedAstrotrackerGUI) (start_index : Z)
    (names : list string) (i : nat) : list Row :=
  match i, names with
  | S i, target_name :: names =>
      let selected := (start_index =? selected_target_index self)%Z in
      let prefix :=
        if bool_decide (Some target_name = current_target self) then "► "
        else if selected then "• "
        else "  " in
      {| target_index := start_index;
         text := prefix ++ target_name;
         highlight := selected |}
      :: rows_from self (start_index + 1) names i
  | _, _ => []
  end.

(** The row that the loop draws for the target of index [z] and name
    [target_name]. *)
Definition row (self : AdvancedAstrotrackerGUI) (z : Z) (target_name : string)
  : Row :=
  {| target_index := z;
     text := (if bool_decide (Some target_name = current_target self)
              then "► "
              else if (z =? selected_target_index self)%Z then "• "
              else "  ") ++ target_name;
     highlight := (z =? selected_target_index self)%Z |}.

(** The rows drawn by [draw_target_selector]; with no target the panel shows
    a message instead. *)
Definition draw_target_selector (self : AdvancedAstrotrackerGUI) : list Row :=
  match available_targets self with
  | [] => []
  | _ =>
      let visible_targets := 8%Z in
      let start_index :=
        Z.max 0 (Z.min (selected_target_index self - visible_targets / 2)
                       (Z.of_nat (length (available_targets self))
                        - visible_targets)) in
      rows_from self start_index
        (drop (Z.to_nat start_index) (available_targets self))
        (Z.to_nat visible_targets)
  end.

(** [update_astronomical_data()].  Both methods of the simulator catch their
    exceptions, and so does [get_local_sidereal_time]: the [except] branch of
    the method is not reached. *)
Definition update_astronomical_data (tick : Tick)
    (self : AdvancedAstrotrackerGUI) : AdvancedAstrotrackerGUI :=
  match simulator self with
  | None => self
  | Some sim =>
      let sidereal_time :=
        match earth_location self with
        | Some _ => lst tick
        | None => sidereal_time self
        end in
      let sun_moon_info := AstroSimulator.get_sun_moon_info (now_info tick) sim in
      match current_target self with
      | Some target =>
          if String.eqb target "" then
            {| simulator := simulator self;
               earth_location := earth_location self;
               tracking_status := tracking_status self;
               last_update := Some (now_update tick);
               current_target := current_target self;
               target_coords := target_coords self;
               telescope_pos := telescope_pos self;
               selected_target_index := selected_target_index self;
               available_targets := available_targets self;
               sun_moon_info := sun_moon_info;
               sidereal_time := sidereal_time |}
          else
            let target_coords :=
              AstroSimulator.get_target_coordinates (now_coords tick) sim None in
            let telescope_pos :=
              AstroSimulator.simulate_telescope_position (float_add tick)
                (draw_alt tick) (draw_az tick) target_coords in
            let visible :=
              match target_coords with
              | Some (AstroSimulator.CoordsOk c) => AstroSimulator.is_visible c
              | _ => false
              end in
            {| simulator := simulator self;
               earth_location := earth_location self;
               tracking_status :=
                 if visible then "Siguiendo " ++ target
                 else target ++ " no visible";
               last_update := Some (now_update tick);
               current_target := current_target self;
               target_coords := target_coords;
               telescope_pos := Some telescope_pos;
               selected_target_index := selected_target_index self;
               available_targets := available_targets self;
               sun_moon_info := sun_moon_info;
               sidereal_time := sidereal_time |}
      | None =>
          {| simulator := simulator self;
             earth_location := earth_location self;
             tracking_status := tracking_status self;
             last_update := Some (now_update tick);
             current_target := current_target self;
             target_coords := target_coords self;
             telescope_pos := telescope_pos self;
             selected_target_index := selected_target_index self;
             available_targets := available_targets self;
             sun_moon_info := sun_moon_info;
             sidereal_time := sidereal_time |}
      end
  end.

End Gui.
End AdvancedGui.

(** ** A sky to run the definitions on *)

(** An instance of [Astropy] in which the star and the Moon stand at given
    horizontal positions and the Sun at a position given for each time.  A
    time is its ISO string.  The location constructor does what astropy's
    geodetic constructor does with numbers: the latitude is a [Latitude],
    refused outside [-90, 90] with an exception; the longitude is an angle
    wrapped into [-180, 180). *)
Module Planetarium.

Record Geodetic : Type := { lat : Q; lon : Q; height : Q }.

Definition number (v : PyVal) : option Q :=
  match v with
  | PyInt n => Some (inject_Z n)
  | PyFloat x => Some x
  | _ => None
  end.

Definition wrap_at_180 (x : Q) : Q :=
  (x - 360 * inject_Z (Qfloor ((x + 180) / 360)))%Q.

Definition geodetic (a b c : PyVal) : Exception + Geodetic :=
  match number a, number b, number c with
  | Some lat, Some lon, Some height =>
      if Qle_bool (-90) lat && Qle_bool lat 90
      then inr {| lat := lat; lon := wrap_at_180 lon; height := height |}
      else inl "Latitude angle(s) must be within -90 deg <= angle <= 90 deg"
  | _, _, _ => inl "Coordinates could not be parsed"
  end.

Definition sky (star : AltAzDeg) (sun : string -> AltAzDeg) (moon : AltAzDeg)
  : Astropy :=
  {| EarthLocation := Geodetic;
     Time := string;
     EarthLocation_new := geodetic;
     Time_new := fun v =>
       match v with
       | PyStr s => inr s
       | _ => inl "Input values did not match any of the formats"
       end;
     Time_iso := fun t => t;
     star_altaz := fun _ _ _ _ => inr star;
     sun_altaz := fun t _ => inr (sun t);
     moon_altaz := fun _ _ => inr moon |}.

(** The Teide observatory of the repository's tests. *)
Definition teide : Geodetic :=
  {| lat := 28.3009; lon := -16.5093; height := 2390 |}%Q.

(** Dusk: the star 5 degrees up, the Sun 10 degrees down, the Moon on the
    horizon. *)
Definition dusk : Astropy :=
  sky {| alt_deg := 5; az_deg := 100 |}
      (fun _ => {| alt_deg := -10; az_deg := 290 |})
      {| alt_deg := 0; az_deg := 90 |}.



(** A simulator at the location [loc] that follows Vega, under the sky [AP]. *)
Definition following_vega (AP : Astropy) (loc : option EarthLocation)
  : AstroSimulator.AstroTrackingSimulator :=
  fst (AstroSimulator.set_target (AstroSimulator.init loc) "Vega").


(** A manager whose current location is [v] and that has built no
    [EarthLocation]. *)
Definition manager_with (AP : Astropy) (v : PyVal) : Ubicacion.UbicacionManager :=
  {| Ubicacion.ubicacion_actual := v; Ubicacion.earth_location := None |}.

(** A file system with no file, every path writable. *)
Definition empty_disk : Ubicacion.FileSystem :=
  {| Ubicacion.files := ∅; Ubicacion.unwritable := ∅ |}.

(** A persisted observer on the equator: Quito, latitude 0.0. *)
Definition quito : list (string * PyVal) :=
  [ ("latitud", PyFloat 0); ("longitud", PyFloat (-78.5));
    ("ciudad", PyStr "Quito"); ("pais", PyStr "Ecuador");
    ("region", PyStr ""); ("timezone", PyStr "");
    ("altitud", PyInt 2850); ("timestamp", PyStr "2024-06-01T22:00:00") ].

Definition disk_with_quito : Ubicacion.FileSystem :=
  {| Ubicacion.files := {[ "ubicacion_config.json" := Ubicacion.JsonDocument (PyDict quito) ]};
     Ubicacion.unwritable := ∅ |}.

(** An answer of a geocoder for a place of the Canary Islands, with the
    given [ok] and coordinates. *)
Definition answer (ok : bool) (latlng : option (PyVal * PyVal))
  : Ubicacion.Geocoded :=
  {| Ubicacion.ok := ok;
     Ubicacion.latlng := latlng;
     Ubicacion.city := PyStr "La Orotava";
     Ubicacion.country := PyStr "ES";
     Ubicacion.state := PyStr "Canarias";
     Ubicacion.timezone := PyStr "Atlantic/Canary";
     Ubicacion.address := PyStr "La Orotava, Canarias, ES";
     Ubicacion.provider := PyStr "ipinfo" |}.

(** A network on which each provider does as [geocode] says and no reverse
    query is answered. *)
Definition network (geocode : string -> Ubicacion.Query
                              -> Exception + Ubicacion.Geocoded)
  : Ubicacion.Network :=
  {| Ubicacion.geocode := geocode;
     Ubicacion.reverse := fun _ _ _ => inl "connection refused";
     Ubicacion.isoformat := fun _ => "2024-06-01T22:00:00.000000" |}.

(** No provider can be reached. *)
Definition offline : Ubicacion.Network :=
  network (fun _ _ => inl "connection refused").

(** The query by IP is answered with the coordinates of the Teide. *)
Definition online : Ubicacion.Network :=
  network (fun p q =>
    if String.eqb p "ip"
    then inr (answer true (Some (PyFloat 28.3009, PyFloat (-16.5093))))
    else inl "connection refused").

(** The query by IP is answered [ok], without coordinates. *)
Definition online_no_coordinates : Ubicacion.Network :=
  network (fun p q =>
    if String.eqb p "ip" then inr (answer true None)
    else inl "connection refused").

(** The query by IP and ipapi raise, freegeoip answers with the coordinates
    of the Teide, maxmind answers without [ok]; by address, arcgis raises
    and here finds a place on the equator. *)
Definition patchy : Ubicacion.Network :=
  network (fun p q =>
    if String.eqb p "freegeoip"
    then inr (answer true (Some (PyFloat 28.3009, PyFloat (-16.5093))))
    else if String.eqb p "maxmind" then inr (answer false None)
    else if String.eqb p "here"
    then inr (answer true (Some (PyFloat 0, PyFloat (-78.5))))
    else inl "connection refused").

(** As [patchy], and in reverse arcgis cannot be reached and here knows the
    place. *)
Definition surveyed : Ubicacion.Network :=
  {| Ubicacion.geocode := Ubicacion.geocode patchy;
     Ubicacion.reverse := fun p _ _ =>
       if String.eqb p "here"
       then inr {| Ubicacion.r_ok := true;
                   Ubicacion.r_address := PyStr "Av. 10 de Agosto, Quito";
                   Ubicacion.postal := PyStr "170135";
                   Ubicacion.neighborhood := PyStr "" |}
       else inl "connection refused";
     Ubicacion.isoformat := Ubicacion.isoformat patchy |}.

(** The record of the Teide observatory, as entered by hand. *)
Definition teide_record : list (string * PyVal) :=
  [ ("latitud", PyFloat 28.3009); ("longitud", PyFloat (-16.5093));
    ("ciudad", PyStr "La Orotava"); ("pais", PyStr "ES");
    ("region", PyStr ""); ("timezone", PyStr "");
    ("altitud", PyInt 2390); ("timestamp", PyStr "2024-06-01T22:00:00") ].

(** The text of the [TypeError] of [v['latitud']] on a list. *)
Definition list_index_error (v : PyVal) : Exception :=
  "list indices must be integers or slices, not str".

(** [int(s)] for the decimal strings of the standard library. *)
Definition int_decimal (s : string) : option Z :=
  Z.of_int <$> NilZero.int_of_string s.

Definition ascii_codec_error (s : string) : Exception :=
  "'ascii' codec can't encode character".

(** The application after [__init__], the port COM3 chosen in the box. *)
Definition app_com3 : Comunicacion.CNCApp :=
  {| Comunicacion.ser := None;
     Comunicacion.jog_buttons := false;
     Comunicacion.btn_con := true;
     Comunicacion.btn_des := false;
     Comunicacion.var_paso := "200";
     Comunicacion.var_vel := "1000";
     Comunicacion.var_acel := "400";
     Comunicacion.cmb_port := "COM3";
     Comunicacion.txt_log := "";
     Comunicacion.dialogs := [] |}.

(** The same application, connected. *)
Definition app_connected : Comunicacion.CNCApp :=
  Comunicacion.conectar (inr tt) app_com3.

(** The window at dusk, its simulator at the Teide, the catalog in the
    selector, the target of index [i] selected and [current] followed. *)
Definition window (i : Z) (current : option string)
  : AdvancedGui.AdvancedAstrotrackerGUI (AP := dusk) :=
  AdvancedGui.Build_AdvancedAstrotrackerGUI (AP := dusk)
    (Some (match current with
           | Some target =>
               fst (AstroSimulator.set_target
                      (AstroSimulator.init (AP := dusk) (Some teide)) target)
           | None => AstroSimulator.init (AP := dusk) (Some teide)
           end))
    (Some teide) "Inactivo" None current None None i
    (AstroSimulator.get_catalog_objects
       (AstroSimulator.init (AP := dusk) (Some teide)))
    None "00:00:00".

(** One update at dusk, the telescope off by 0.05 and -0.02 degrees. *)
Definition tick_dusk : AdvancedGui.Tick (AP := dusk) :=
  @AdvancedGui.Build_Tick dusk
    "05:12:40" "2024-06-01 22:00:00.000" "2024-06-01 22:00:00.001"
    0.05%Q (-0.02)%Q Qplus "2024-06-01T22:00:00.002000".

End Planetarium.

(** * Properties *)

(** ** Comparisons of finite floats *)






(** ** Dictionaries *)

Lemma assoc_None {V : Type} (k : string) (kvs : list (string * V)) :
  assoc k kvs = None <-> k ∉ map fst kvs.
Proof.
  induction kvs as [|[k' v] kvs IH]; simpl.
  - split; [intros _; apply not_elem_of_nil | reflexivity].
  - rewrite not_elem_of_cons. destruct (String.eqb_spec k k') as [->|Hne].
    + split; [discriminate | intros [[] _]; reflexivity].
    + rewrite IH. tauto.
Qed.

Lemma assoc_is_Some {V : Type} (k : string) (kvs : list (string * V)) :
  is_Some (assoc k kvs) <-> k ∈ map fst kvs.
Proof.
  rewrite <- not_eq_None_Some, assoc_None.
  split; [apply dec_stable | tauto].
Qed.

(** ** The day phase *)

Section DayPhase.
Import AstroSimulator.
Local Open Scope Q_scope.



(** The four thresholds belong to the phase below them. *)
Example classify_day_phase_boundaries :
  classify_day_phase 6 = "Crepúsculo" /\
  classify_day_phase (-6) = "Crepúsculo náutico" /\
  classify_day_phase (-12) = "Crepúsculo astronómico" /\
  classify_day_phase (-18) = "Noche".
Proof. repeat split. Qed.

End DayPhase.

(** ** The tracking simulator *)

Section SimulatorProperties.
Import AstroSimulator.
Context `{AP : Astropy}.
Local Open Scope Q_scope.




(** C7.  [set_target] succeeds exactly on the names of the catalog: on such a
    name it returns [True], records the name as the target and activates
    tracking; on any other name it returns [False] and leaves the instance,
    target and tracking flag included, as it was. *)
Theorem set_target_catalog (self : AstroTrackingSimulator) (target_name : string) :
  (snd (set_target self target_name) = true <->
     target_name ∈ get_catalog_objects self) /\
  (target_name ∈ get_catalog_objects self ->
     set_target self target_name =
       ({| earth_location := earth_location self;
           target_object := Some target_name;
           tracking_active := true;
           catalog := catalog self |}, true)) /\
  (target_name ∉ get_catalog_objects self ->
     set_target self target_name = (self, false)).
Proof.
  unfold set_target, get_catalog_objects.
  rewrite <- assoc_is_Some.
  destruct (assoc target_name (catalog self)) as [entry|] eqn:He; simpl.
  - repeat split; intros; eauto. exfalso; eauto.
  - repeat split; intros; try discriminate.
    + exfalso. eapply is_Some_None; eauto.
    + exfalso. eapply is_Some_None; eauto.
Qed.


End SimulatorProperties.

(** ** Visibility and observing conditions across the two classes *)

Section ObservationProperties.
Import AstroSimulator Tracker.
Context `{AP : Astropy}.
Local Open Scope Q_scope.




End ObservationProperties.

(** ** The location manager *)

Section ManagerProperties.
Import Ubicacion.
Context `{AP : Astropy}.

Lemma write_file_lookup (fs fs' : FileSystem) (archivo : string) (c : FileContent) :
  write_file fs archivo c = Some fs' -> files fs' !! archivo = Some c.
Proof.
  unfold write_file. case_decide; [discriminate|].
  intros [= <-]. simpl. apply lookup_insert_eq.
Qed.

(** A save that reports success has put the document of the current location
    at the path. *)
Lemma guardar_ubicacion_true (self : UbicacionManager) (fs fs' : FileSystem)
    (archivo : string) :
  guardar_ubicacion self fs archivo = (fs', true) ->
  files fs' !! archivo = Some (JsonDocument (ubicacion_actual self)).
Proof.
  unfold guardar_ubicacion.
  destruct (truthy (ubicacion_actual self)); [|discriminate].
  destruct (write_file fs archivo _) as [fs1|] eqn:Hw; [|discriminate].
  intros [= <-]. eapply write_file_lookup, Hw.
Qed.

(** Whatever comes after [json.load], the loaded document is the current
    location of the instance, and a result other than [None] is that
    document. *)
Lemma cargar_ubicacion_document (self : UbicacionManager) (fs : FileSystem)
    (archivo : string) (v : PyVal) :
  files fs !! archivo = Some (JsonDocument v) ->
  ubicacion_actual (fst (cargar_ubicacion self fs archivo)) = v /\
  (snd (cargar_ubicacion self fs archivo) = Some v \/
   snd (cargar_ubicacion self fs archivo) = None).
Proof.
  unfold cargar_ubicacion. intros ->.
  destruct v as [| | | | | |kvs]; simpl; auto.
  destruct (truthy _ && truthy _); simpl; auto.
  destruct (EarthLocation_new _ _ _); simpl; auto.
Qed.

(** The load of a dictionary, by the guard on its latitude and longitude. *)
Lemma cargar_ubicacion_dict (self : UbicacionManager) (fs : FileSystem)
    (archivo : string) (kvs : list (string * PyVal)) :
  files fs !! archivo = Some (JsonDocument (PyDict kvs)) ->
  let latitud := default PyNone (assoc "latitud" kvs) in
  let longitud := default PyNone (assoc "longitud" kvs) in
  let altitud := default (PyInt 0) (assoc "altitud" kvs) in
  cargar_ubicacion self fs archivo =
    if truthy latitud && truthy longitud then
      match EarthLocation_new latitud longitud altitud with
      | inl _ => ({| ubicacion_actual := PyDict kvs;
                     earth_location := earth_location self |}, None)
      | inr loc => ({| ubicacion_actual := PyDict kvs;
                       earth_location := Some loc |}, Some (PyDict kvs))
      end
    else ({| ubicacion_actual := PyDict kvs;
             earth_location := earth_location self |}, Some (PyDict kvs)).
Proof.
  unfold cargar_ubicacion. intros ->. reflexivity.
Qed.

(** [obtener_ubicacion_automatica] has the same guard: a geocoder answer on
    the equator or on the prime meridian is returned as the location and
    builds no [EarthLocation]. *)
Lemma obtener_ubicacion_automatica_zero (g : Geocoded) (now_iso : string)
    (self : UbicacionManager) (a b : PyVal) :
  ok g = true -> latlng g = Some (a, b) ->
  a = PyFloat 0 \/ b = PyFloat 0 ->
  exists ubicacion,
    obtener_ubicacion_automatica (inr g) now_iso self
    = ({| ubicacion_actual := ubicacion;
          earth_location := earth_location self |}, Some ubicacion).
Proof.
  intros Hok Hll Hzero. unfold obtener_ubicacion_automatica.
  rewrite Hok, Hll.
  assert (truthy a && truthy b = false) as ->.
  { destruct Hzero as [-> | ->]; [reflexivity | apply andb_false_r]. }
  eauto.
Qed.

(** C9, as the code has it.  [establecer_ubicacion_manual] checks no range:
    whatever the latitude and longitude, it records them as the current
    location before the [EarthLocation] is built, and it fails exactly when
    the constructor of [EarthLocation] raises, with that exception; otherwise
    it installs the location built and returns the record. *)
Theorem establecer_ubicacion_manual_unchecked (now_iso : string)
    (self : UbicacionManager) (latitud longitud altitud : PyVal)
    (ciudad pais : string) :
  let ubicacion :=
    PyDict [ ("latitud", latitud); ("longitud", longitud);
             ("ciudad", PyStr ciudad); ("pais", PyStr pais);
             ("region", PyStr ""); ("timezone", PyStr "");
             ("altitud", altitud); ("timestamp", PyStr now_iso) ] in
  let out := establecer_ubicacion_manual now_iso self latitud longitud altitud
               ciudad pais in
  ubicacion_actual (fst out) = ubicacion /\
  (forall e, snd out = inl e <->
             EarthLocation_new latitud longitud altitud = inl e) /\
  (forall loc, EarthLocation_new latitud longitud altitud = inr loc ->
     out = ({| ubicacion_actual := ubicacion; earth_location := Some loc |},
            inr ubicacion)) /\
  (forall e, EarthLocation_new latitud longitud altitud = inl e ->
     earth_location (fst out) = earth_location self).
Proof.
  unfold establecer_ubicacion_manual.
  destruct (EarthLocation_new latitud longitud altitud) as [e|loc]; simpl;
    repeat split; intros; congruence.
Qed.

(** C8.  A location saved with success is the current location of whichever
    instance then loads the file, and the result of that load is the saved
    location when it is not [None].  For a location set by
    [establecer_ubicacion_manual] the save succeeds on a writable path and the
    load returns the record, whose latitude, longitude and altitude are the
    values that were entered. *)
Theorem guardar_cargar_roundtrip :
  (forall (self other : UbicacionManager) fs fs' archivo,
     guardar_ubicacion self fs archivo = (fs', true) ->
     ubicacion_actual (fst (cargar_ubicacion other fs' archivo))
       = ubicacion_actual self /\
     (forall v, snd (cargar_ubicacion other fs' archivo) = Some v ->
                v = ubicacion_actual self)) /\
  (forall now_iso (self self' other : UbicacionManager)
          latitud longitud altitud ciudad pais ubicacion fs archivo,
     establecer_ubicacion_manual now_iso self latitud longitud altitud
       ciudad pais = (self', inr ubicacion) ->
     archivo ∉ unwritable fs ->
     exists fs' kvs,
       guardar_ubicacion self' fs archivo = (fs', true) /\
       snd (cargar_ubicacion other fs' archivo) = Some (PyDict kvs) /\
       ubicacion_actual (fst (cargar_ubicacion other fs' archivo)) = PyDict kvs /\
       PyDict kvs = ubicacion /\
       assoc "latitud" kvs = Some latitud /\
       assoc "longitud" kvs = Some longitud /\
       assoc "altitud" kvs = Some altitud).
Proof.
  split.
  - intros self other fs fs' archivo Hsave.
    apply guardar_ubicacion_true in Hsave.
    destruct (cargar_ubicacion_document other _ _ _ Hsave) as [Hstate Hres].
    split; [exact Hstate|].
    intros v Hv. destruct Hres as [Hres|Hres]; congruence.
  - intros now_iso self self' other latitud longitud altitud ciudad pais
      ubicacion fs archivo Hset Hw.
    unfold establecer_ubicacion_manual in Hset.
    destruct (EarthLocation_new latitud longitud altitud) as [e|loc] eqn:Hloc;
      [discriminate|].
    injection Hset as <- <-.
    eexists _, _. split.
    { unfold guardar_ubicacion, write_file. simpl.
      rewrite decide_False by exact Hw. reflexivity. }
    rewrite (cargar_ubicacion_dict other _ archivo _ (lookup_insert_eq _ _ _)).
    simpl. rewrite Hloc.
    destruct (truthy latitud && truthy longitud); simpl; auto 10.
Qed.

End ManagerProperties.

(** ** The location manager and its clients *)

Section LoadedLocation.
Import Ubicacion.
Context `{AP : Astropy}.

(** Without a location the simulator computes nothing, whatever its target. *)
Lemma no_location_no_coordinates (now : Time)
    (self : AstroSimulator.AstroTrackingSimulator) (instant : option PyVal) :
  AstroSimulator.earth_location self = None ->
  AstroSimulator.get_target_coordinates now self instant = None /\
  AstroSimulator.get_sun_moon_info now self = None.
Proof.
  unfold AstroSimulator.get_target_coordinates, AstroSimulator.get_sun_moon_info.
  intros ->. destruct (AstroSimulator.target_object self); auto.
Qed.

Lemma set_target_earth_location
    (self : AstroSimulator.AstroTrackingSimulator) (target_name : string) :
  AstroSimulator.earth_location (fst (AstroSimulator.set_target self target_name))
  = AstroSimulator.earth_location self.
Proof.
  unfold AstroSimulator.set_target.
  destruct (assoc target_name (AstroSimulator.catalog self)); reflexivity.
Qed.

(** C10.  A load that returns the loaded dictionary has rebuilt the
    [EarthLocation] iff the stored latitude and longitude are both true
    values (present and nonzero); otherwise the [EarthLocation] of the
    instance is left as it was.  So a fresh instance that loads an observer
    with latitude 0.0 or longitude 0.0 returns the loaded location and has no
    [EarthLocation]: a simulator created from it returns [None] from
    [get_target_coordinates] and [get_sun_moon_info], and a tracker holding
    its location returns [None] from [calcular_posicion_sol] and
    [calcular_posicion_luna]. *)
Theorem cargar_ubicacion_zero_coordinate :
  (forall (self self' : UbicacionManager) fs archivo kvs,
     cargar_ubicacion self fs archivo = (self', Some (PyDict kvs)) ->
     let latitud := default PyNone (assoc "latitud" kvs) in
     let longitud := default PyNone (assoc "longitud" kvs) in
     let altitud := default (PyInt 0) (assoc "altitud" kvs) in
     if truthy latitud && truthy longitud
     then exists loc, EarthLocation_new latitud longitud altitud = inr loc /\
                      earth_location self' = Some loc
     else earth_location self' = earth_location self) /\
  (forall fs archivo kvs,
     files fs !! archivo = Some (JsonDocument (PyDict kvs)) ->
     assoc "latitud" kvs = Some (PyFloat 0) \/
     assoc "longitud" kvs = Some (PyFloat 0) ->
     exists self',
       cargar_ubicacion init fs archivo = (self', Some (PyDict kvs)) /\
       get_earth_location self' = None /\
       (forall now target instant,
          AstroSimulator.get_target_coordinates now
            (fst (AstroSimulator.set_target
                    (AstroSimulator.create_simulator self') target))
            instant = None) /\
       (forall now,
          AstroSimulator.get_sun_moon_info now
            (AstroSimulator.create_simulator self') = None) /\
       (forall now tracker tiempo,
          Tracker.earth_location tracker = get_earth_location self' ->
          Tracker.calcular_posicion_sol now tracker tiempo = inr None /\
          Tracker.calcular_posicion_luna now tracker tiempo = inr None)).
Proof.
  split.
  - intros self self' fs archivo kvs. unfold cargar_ubicacion.
    destruct (files fs !! archivo) as [[v|]|]; try discriminate.
    destruct v as [| | | | | |kvs']; try discriminate.
    intros H.
    assert (kvs' = kvs) as ->.
    { destruct (truthy _ && truthy _); [destruct (EarthLocation_new _ _ _)|];
        congruence. }
    simpl. destruct (truthy _ && truthy _).
    + destruct (EarthLocation_new _ _ _) as [e|loc]; [discriminate|].
      injection H as <-. eauto.
    + injection H as <-. reflexivity.
  - intros fs archivo kvs Hfile Hzero.
    assert (Hguard : truthy (default PyNone (assoc "latitud" kvs)) &&
                     truthy (default PyNone (assoc "longitud" kvs)) = false).
    { destruct Hzero as [-> | ->]; [reflexivity | apply andb_false_r]. }
    eexists. split.
    { rewrite (cargar_ubicacion_dict init fs archivo kvs Hfile), Hguard.
      reflexivity. }
    split; [reflexivity|]. split; [|split].
    + intros now target instant.
      apply no_location_no_coordinates. apply set_target_earth_location.
    + intros now. apply (no_location_no_coordinates now _ None). reflexivity.
    + intros now tracker tiempo Hloc. simpl in Hloc.
      unfold Tracker.calcular_posicion_sol, Tracker.calcular_posicion_luna.
      rewrite Hloc. split; reflexivity.
Qed.

End LoadedLocation.

(** ** Runs on the sample skies *)

Section Runs.
Import Planetarium.
Local Open Scope Q_scope.




(** C9 as stated fails: the longitude 200 is accepted, the record with it is
    returned and a location is installed; and the latitude 95, which the
    constructor of the location refuses, is left behind in the current
    location of the instance. *)
Lemma out_of_range_coordinates_recorded :
  (180 < 200 /\
   exists self' ubicacion kvs,
     Ubicacion.establecer_ubicacion_manual (AP := dusk) "2024-06-01T22:00:00"
       Ubicacion.init (PyFloat 0) (PyFloat 200) (PyInt 0) "" ""
       = (self', inr ubicacion) /\
     ubicacion = PyDict kvs /\
     assoc "longitud" kvs = Some (PyFloat 200) /\
     Ubicacion.get_earth_location self'
       = Some {| lat := 0; lon := -160; height := 0 |}) /\
  (90 < 95 /\
   exists self' e kvs,
     Ubicacion.establecer_ubicacion_manual (AP := dusk) "2024-06-01T22:00:00"
       Ubicacion.init (PyFloat 95) (PyFloat 20) (PyInt 0) "" ""
       = (self', inl e) /\
     Ubicacion.ubicacion_actual self' = PyDict kvs /\
     assoc "latitud" kvs = Some (PyFloat 95)).
Proof.
  split; (split; [reflexivity|]); eexists _, _, _;
    repeat (split; [reflexivity|]); reflexivity.
Qed.

(** The theorems above at concrete inputs. *)





(** Polaris is in the catalog, Andromeda is not. *)
Lemma set_target_catalog_witness :
  AstroSimulator.set_target (AstroSimulator.init (AP := dusk) (Some teide)) "Polaris"
  = (AstroSimulator.Build_AstroTrackingSimulator (AP := dusk)
       (Some teide) (Some "Polaris") true AstroSimulator.catalog0, true) /\
  AstroSimulator.set_target (following_vega dusk (Some teide)) "Andromeda"
  = (following_vega dusk (Some teide), false).
Proof.
  split.
  - apply (proj1 (proj2 (set_target_catalog (AP := dusk)
                           (AstroSimulator.init (AP := dusk) (Some teide))
                           "Polaris"))).
    apply (bool_decide_unpack _). vm_compute. exact I.
  - apply (proj2 (proj2 (set_target_catalog (AP := dusk)
                           (following_vega dusk (Some teide)) "Andromeda"))).
    apply (bool_decide_unpack _). vm_compute. exact I.
Defined.

(** The manual entry of the Teide observatory. *)
Lemma establecer_ubicacion_manual_unchecked_witness :
  exists self' ubicacion,
    Ubicacion.establecer_ubicacion_manual (AP := dusk) "2024-06-01T22:00:00"
      Ubicacion.init (PyFloat 28.3009) (PyFloat (-16.5093)) (PyInt 2390)
      "Observatorio del Teide" "España" = (self', inr ubicacion).
Proof.
  eexists _, _.
  eapply (proj1 (proj2 (proj2
            (establecer_ubicacion_manual_unchecked (AP := dusk)
               "2024-06-01T22:00:00" Ubicacion.init
               (PyFloat 28.3009) (PyFloat (-16.5093)) (PyInt 2390)
               "Observatorio del Teide" "España")))).
  reflexivity.
Defined.

(** Quito saved and loaded; the Teide entered, saved and loaded. *)
Lemma guardar_cargar_roundtrip_witness :
  (let saved :=
     Ubicacion.guardar_ubicacion (manager_with dusk (PyDict quito)) empty_disk
       "ubicacion_config.json" in
   Ubicacion.ubicacion_actual
     (fst (Ubicacion.cargar_ubicacion (Ubicacion.init (AP := dusk)) (fst saved)
             "ubicacion_config.json")) = PyDict quito) /\
  (let entered :=
     Ubicacion.establecer_ubicacion_manual (AP := dusk) "2024-06-01T22:00:00"
       Ubicacion.init (PyFloat 28.3009) (PyFloat (-16.5093)) (PyInt 2390)
       "Observatorio del Teide" "España" in
   exists fs' kvs,
     Ubicacion.guardar_ubicacion (fst entered) empty_disk "ubicacion_config.json"
       = (fs', true) /\
     snd (Ubicacion.cargar_ubicacion (Ubicacion.init (AP := dusk)) fs'
            "ubicacion_config.json") = Some (PyDict kvs) /\
     assoc "latitud" kvs = Some (PyFloat 28.3009) /\
     assoc "longitud" kvs = Some (PyFloat (-16.5093)) /\
     assoc "altitud" kvs = Some (PyInt 2390)).
Proof.
  split.
  - intros saved.
    apply (proj1 (proj1 (guardar_cargar_roundtrip (AP := dusk))
                    (manager_with dusk (PyDict quito)) Ubicacion.init
                    empty_disk (fst saved) "ubicacion_config.json"
                    eq_refl)).
  - intros entered.
    destruct (proj2 (guardar_cargar_roundtrip (AP := dusk))
                "2024-06-01T22:00:00" Ubicacion.init (fst entered)
                Ubicacion.init (PyFloat 28.3009) (PyFloat (-16.5093))
                (PyInt 2390) "Observatorio del Teide" "España" _
                empty_disk "ubicacion_config.json" eq_refl)
      as (fs' & kvs & Hsave & Hload & _ & _ & Hlat & Hlon & Halt).
    + apply (bool_decide_unpack _). vm_compute. exact I.
    + exists fs', kvs. auto.
Defined.

(** Quito, on the equator, loaded by a fresh manager. *)
Lemma cargar_ubicacion_zero_coordinate_witness :
  Ubicacion.earth_location
    (fst (Ubicacion.cargar_ubicacion (Ubicacion.init (AP := dusk))
            disk_with_quito "ubicacion_config.json")) = None /\
  exists self',
    Ubicacion.cargar_ubicacion (Ubicacion.init (AP := dusk)) disk_with_quito
      "ubicacion_config.json" = (self', Some (PyDict quito)) /\
    Ubicacion.get_earth_location self' = None /\
    AstroSimulator.get_target_coordinates (AP := dusk) "2024-06-01 22:00:00.000"
      (fst (AstroSimulator.set_target
              (AstroSimulator.create_simulator self') "Vega")) None = None.
Proof.
  split.
  - apply (proj1 (cargar_ubicacion_zero_coordinate (AP := dusk))
             Ubicacion.init _ disk_with_quito "ubicacion_config.json" quito
             eq_refl).
  - destruct (proj2 (cargar_ubicacion_zero_coordinate (AP := dusk))
                disk_with_quito "ubicacion_config.json" quito eq_refl
                (or_introl eq_refl))
      as (self' & Hload & Hloc & Hcoords & _).
    exists self'. auto.
Defined.

End Runs.

(** * Further properties of the code *)

(** ** The provider chains of the location manager *)

Section ProviderChains.
Import Ubicacion.
Context `{AP : Astropy}.

(** A provider that raises or answers without [ok] is passed over. *)
Lemma alternativa_loop_skip (net : Network) (q : string) (rest : list string)
    (self : UbicacionManager) :
  match geocode net q Me with inl _ => True | inr g => ok g = false end ->
  obtener_ubicacion_alternativa_loop net (q :: rest) self
  = obtener_ubicacion_alternativa_loop net rest self.
Proof.
  simpl. destruct (geocode net q Me) as [e|g]; [reflexivity|].
  intros ->. reflexivity.
Qed.


(** A loop that returns [None] has built no [EarthLocation]. *)
Lemma alternativa_loop_none (net : Network) (proveedores : list string)
    (self self' : UbicacionManager) :
  obtener_ubicacion_alternativa_loop net proveedores self = (self', None) ->
  earth_location self' = earth_location self.
Proof.
  revert self. induction proveedores as [|q rest IH]; intros self; simpl.
  - intros [= <-]. reflexivity.
  - destruct (geocode net q Me) as [e|g]; [apply IH|].
    destruct (ok g); [|apply IH].
    destruct (truthy _ && truthy _); [|discriminate].
    destruct (EarthLocation_new _ _ _) as [e|loc]; [|discriminate].
    intros H. apply IH in H. exact H.
Qed.

Lemma alternativa_loop_all_skipped (net : Network) (proveedores : list string)
    (self : UbicacionManager) :
  Forall (fun q => match geocode net q Me with
                   | inl _ => True
                   | inr g => ok g = false
                   end) proveedores ->
  obtener_ubicacion_alternativa_loop net proveedores self = (self, None).
Proof.
  induction 1 as [|q rest Hq _ IH]; [reflexivity|].
  rewrite alternativa_loop_skip by exact Hq. exact IH.
Qed.




(** X3.  When [obtener_ubicacion_alternativa] returns [None] it has built no
    [EarthLocation]: the one of the instance is as before.  When moreover
    each of the three providers raised or answered without [ok], the
    instance is unchanged altogether. *)
Theorem obtener_ubicacion_alternativa_none (net : Network)
    (self : UbicacionManager) :
  (forall self',
     obtener_ubicacion_alternativa net self = (self', None) ->
     earth_location self' = earth_location self) /\
  (Forall (fun q => match geocode net q Me with
                    | inl _ => True
                    | inr g => ok g = false
                    end) ["ipapi"; "freegeoip"; "maxmind"] ->
   obtener_ubicacion_alternativa net self = (self, None)).
Proof.
  split.
  - intros self'. apply alternativa_loop_none.
  - apply alternativa_loop_all_skipped.
Qed.

(** X4.  [obtener_ubicacion] asks the alternative providers only when the
    automatic query returned [None]: when the query by IP returns a
    location, the result and the instance afterwards are those of
    [obtener_ubicacion_automatica], whatever the other providers would
    answer.  Called with [intentar_automatico=False] it asks nobody and
    leaves the instance as it is. *)
Theorem obtener_ubicacion_automatic_first (net net' : Network)
    (self self' : UbicacionManager) (ubicacion : PyVal) :
  obtener_ubicacion_automatica (geocode net "ip" Me) (isoformat net "ip") self
    = (self', Some ubicacion) ->
  geocode net' "ip" Me = geocode net "ip" Me ->
  isoformat net' "ip" = isoformat net "ip" ->
  obtener_ubicacion net self true = (self', Some ubicacion) /\
  obtener_ubicacion net' self true = (self', Some ubicacion) /\
  fst (obtener_ubicacion net self false) = self /\
  fst (obtener_ubicacion net' self false) = self.
Proof.
  intros Hauto Hg Ht. unfold obtener_ubicacion.
  rewrite Hg, Ht, Hauto. auto.
Qed.

(** Whatever the loop of [obtener_ubicacion_por_direccion] returns comes with
    the [EarthLocation] of its coordinates. *)
Lemma por_direccion_loop_some (net : Network) (direccion : string)
    (proveedores : list string) (self self' : UbicacionManager)
    (ubicacion : PyVal) :
  obtener_ubicacion_por_direccion_loop net direccion proveedores self
    = (self', Some ubicacion) ->
  exists p g latitud longitud loc kvs,
    p ∈ proveedores /\
    geocode net p (Address direccion) = inr g /\ ok g = true /\
    latlng g = Some (latitud, longitud) /\
    EarthLocation_new latitud longitud (PyInt 0) = inr loc /\
    earth_location self' = Some loc /\
    ubicacion_actual self' = ubicacion /\
    ubicacion = PyDict kvs /\
    assoc "latitud" kvs = Some latitud /\
    assoc "longitud" kvs = Some longitud /\
    assoc "proveedor" kvs = Some (PyStr p).
Proof.
  revert self. induction proveedores as [|q rest IH]; intros self; simpl.
  - discriminate.
  - assert (Hrest : forall s,
      obtener_ubicacion_por_direccion_loop net direccion rest s
        = (self', Some ubicacion) ->
      exists p g latitud longitud loc kvs,
        p ∈ q :: rest /\
        geocode net p (Address direccion) = inr g /\ ok g = true /\
        latlng g = Some (latitud, longitud) /\
        EarthLocation_new latitud longitud (PyInt 0) = inr loc /\
        earth_location self' = Some loc /\
        ubicacion_actual self' = ubicacion /\
        ubicacion = PyDict kvs /\
        assoc "latitud" kvs = Some latitud /\
        assoc "longitud" kvs = Some longitud /\
        assoc "proveedor" kvs = Some (PyStr p)).
    { intros s Hs.
      destruct (IH _ Hs) as (p & g & a & b & loc & kvs & Hp & Hrest).
      exists p, g, a, b, loc, kvs. split; [right; assumption | assumption]. }
    destruct (geocode net q (Address direccion)) as [e|g] eqn:Hg;
      [apply Hrest|].
    destruct (ok g) eqn:Hok; [|apply Hrest].
    destruct (latlng g) as [[a b]|] eqn:Hll; [|apply Hrest].
    destruct (EarthLocation_new a b (PyInt 0)) as [e|loc] eqn:Hnew;
      [apply Hrest|].
    intros [= <- <-].
    eexists q, g, a, b, loc, _. repeat split; eauto. left.
Qed.

(** X5.  A location returned by [obtener_ubicacion_por_direccion] always
    comes with its [EarthLocation]: the instance afterwards holds the
    location built from the latitude and longitude of the record, at height
    0, whatever their values; there is no test of the coordinates as in the
    query by IP. *)
Theorem obtener_ubicacion_por_direccion_location (net : Network)
    (direccion : string) (self self' : UbicacionManager) (ubicacion : PyVal) :
  obtener_ubicacion_por_direccion net direccion self = (self', Some ubicacion) ->
  exists p g latitud longitud loc kvs,
    p ∈ ["arcgis"; "here"; "bing"] /\
    geocode net p (Address direccion) = inr g /\ ok g = true /\
    latlng g = Some (latitud, longitud) /\
    EarthLocation_new latitud longitud (PyInt 0) = inr loc /\
    earth_location self' = Some loc /\
    ubicacion_actual self' = ubicacion /\
    ubicacion = PyDict kvs /\
    assoc "latitud" kvs = Some latitud /\
    assoc "longitud" kvs = Some longitud /\
    assoc "proveedor" kvs = Some (PyStr p).
Proof. apply por_direccion_loop_some. Qed.

(** X6.  A place on the equator or on the prime meridian found by address
    has its [EarthLocation] in the session that found it and loses it across
    a save and a load: the save succeeds on a writable path, and a fresh
    instance that loads the file gets the same record back with no
    [EarthLocation]. *)
Theorem por_direccion_guardar_cargar_zero (net : Network) (direccion : string)
    (self self' : UbicacionManager) (kvs : list (string * PyVal))
    (fs : FileSystem) (archivo : string) :
  obtener_ubicacion_por_direccion net direccion self
    = (self', Some (PyDict kvs)) ->
  assoc "latitud" kvs = Some (PyFloat 0) \/
  assoc "longitud" kvs = Some (PyFloat 0) ->
  archivo ∉ unwritable fs ->
  exists loc fs',
    earth_location self' = Some loc /\
    guardar_ubicacion self' fs archivo = (fs', true) /\
    cargar_ubicacion init fs' archivo
      = ({| ubicacion_actual := PyDict kvs; earth_location := None |},
         Some (PyDict kvs)).
Proof.
  intros Hfound Hzero Hw.
  destruct (por_direccion_loop_some _ _ _ _ _ _ Hfound)
    as (p & g & a & b & loc & kvs' & _ & _ & _ & _ & _ & Hloc & Hcur & _).
  exists loc. eexists. split; [exact Hloc|].
  assert (Hsave : guardar_ubicacion self' fs archivo
                  = ({| files := <[archivo := JsonDocument (PyDict kvs)]> (files fs);
                        unwritable := unwritable fs |}, true)).
  { unfold guardar_ubicacion, write_file. rewrite Hcur.
    assert (truthy (PyDict kvs) = true) as ->.
    { destruct kvs; [destruct Hzero; discriminate | reflexivity]. }
    rewrite decide_False by exact Hw. reflexivity. }
  split; [exact Hsave|].
  rewrite (cargar_ubicacion_dict init _ archivo kvs (lookup_insert_eq _ _ _)).
  assert (truthy (default PyNone (assoc "latitud" kvs)) &&
          truthy (default PyNone (assoc "longitud" kvs)) = false) as ->.
  { destruct Hzero as [-> | ->]; [reflexivity | apply andb_false_r]. }
  reflexivity.
Qed.

End ProviderChains.

(** ** The start of the tracker *)

Section TrackerStart.
Import Ubicacion.
Context `{AP : Astropy}.

(** X7.  The first start caches the location.  With no saved file, a
    writable default path and an answer of the query by IP whose latitude and
    longitude are nonzero numbers that [EarthLocation] accepts, the
    constructor of the tracker ends normally with that [EarthLocation] and
    leaves the record in the file; every later start from that file system
    ends normally with the same record and the same [EarthLocation],
    whatever the network answers then. *)
Theorem tracker_first_start_caches (net : Network) (fs : FileSystem)
    (g : Geocoded) (latitud longitud : PyVal) (loc : EarthLocation) :
  files fs !! "ubicacion_config.json" = None ->
  "ubicacion_config.json" ∉ unwritable fs ->
  geocode net "ip" Me = inr g -> ok g = true ->
  latlng g = Some (latitud, longitud) ->
  truthy latitud = true -> truthy longitud = true ->
  format_6f latitud = None -> format_6f longitud = None ->
  EarthLocation_new latitud longitud (PyInt 0) = inr loc ->
  exists fs' kvs,
    let started :=
      {| Tracker.ubicacion_manager :=
           {| ubicacion_actual := PyDict kvs; earth_location := Some loc |};
         Tracker.earth_location := Some loc |} in
    Tracker.new net fs = (started, fs', inr tt) /\
    files fs' !! "ubicacion_config.json" = Some (JsonDocument (PyDict kvs)) /\
    assoc "latitud" kvs = Some latitud /\
    assoc "longitud" kvs = Some longitud /\
    forall net', Tracker.new net' fs' = (started, fs', inr tt).
Proof.
  intros Hnofile Hw Hg Hok Hll Hlat Hlon Hflat Hflon Hloc.
  eexists _, _. split; [|split; [|split; [|split]]].
  - unfold Tracker.new, Tracker.inicializar_ubicacion, cargar_ubicacion.
    rewrite Hnofile. simpl.
    unfold obtener_ubicacion, obtener_ubicacion_automatica.
    rewrite Hg, Hok, Hll, Hlat, Hlon. simpl. rewrite Hloc. simpl.
    unfold guardar_ubicacion, write_file. simpl.
    rewrite decide_False by exact Hw.
    unfold imprimir_ubicacion. simpl. rewrite Hflat, Hflon. reflexivity.
  - simpl. apply lookup_insert_eq.
  - reflexivity.
  - reflexivity.
  - intros net'.
    unfold Tracker.new, Tracker.inicializar_ubicacion.
    cbn [Tracker.ubicacion_manager].
    rewrite (cargar_ubicacion_dict init _ "ubicacion_config.json" _
               (lookup_insert_eq _ _ _)).
    simpl. rewrite Hlat, Hlon. simpl. rewrite Hloc. simpl.
    unfold imprimir_ubicacion. simpl. rewrite Hflat, Hflon. reflexivity.
Qed.

(** X8.  An answer of the query by IP that is [ok] and has no coordinates
    stops the tracker at every start.  With no saved file and a writable
    default path, the constructor saves the record with its empty latitude,
    then leaves with the [TypeError] that formatting [None] with [.6f]
    raises in [imprimir_ubicacion]; every later start loads that record,
    builds no [EarthLocation] and leaves with the same exception, whatever
    the network answers then. *)
Theorem tracker_start_without_coordinates (net : Network) (fs : FileSystem)
    (g : Geocoded) :
  files fs !! "ubicacion_config.json" = None ->
  "ubicacion_config.json" ∉ unwritable fs ->
  geocode net "ip" Me = inr g -> ok g = true -> latlng g = None ->
  exists fs' kvs,
    let stopped :=
      {| Tracker.ubicacion_manager :=
           {| ubicacion_actual := PyDict kvs; earth_location := None |};
         Tracker.earth_location := None |} in
    let raised :=
      inl "unsupported format string passed to NoneType.__format__" in
    Tracker.new net fs = (stopped, fs', raised) /\
    files fs' !! "ubicacion_config.json" = Some (JsonDocument (PyDict kvs)) /\
    assoc "latitud" kvs = Some PyNone /\
    forall net', Tracker.new net' fs' = (stopped, fs', raised).
Proof.
  intros Hnofile Hw Hg Hok Hll.
  eexists _, _. split; [|split; [|split]].
  - unfold Tracker.new, Tracker.inicializar_ubicacion, cargar_ubicacion.
    rewrite Hnofile. simpl.
    unfold obtener_ubicacion, obtener_ubicacion_automatica.
    rewrite Hg, Hok, Hll. simpl.
    unfold guardar_ubicacion, write_file. simpl.
    rewrite decide_False by exact Hw. reflexivity.
  - simpl. apply lookup_insert_eq.
  - reflexivity.
  - intros net'.
    unfold Tracker.new, Tracker.inicializar_ubicacion.
    cbn [Tracker.ubicacion_manager].
    rewrite (cargar_ubicacion_dict init _ "ubicacion_config.json" _
               (lookup_insert_eq _ _ _)).
    reflexivity.
Qed.


End TrackerStart.

(** ** Sequences of target selections *)


Section TargetSequences.
Import AstroSimulator.
Context `{AP : Astropy}.

Lemma set_targets_snoc (self : AstroTrackingSimulator) (names : list string)
    (target_name : string) :
  set_targets self (names ++ [target_name])
  = fst (set_target (set_targets self names) target_name).
Proof. unfold set_targets. rewrite fold_left_app. reflexivity. Qed.

(** The fields of a simulator after a sequence of [set_target] calls. *)
Lemma set_targets_fields (loc : option EarthLocation) (names : list string) :
  let self := set_targets (init loc) names in
  let chosen :=
    last (filter (fun n => n ∈ get_catalog_objects (init loc)) names) in
  catalog self = catalog0 /\
  earth_location self = loc /\
  target_object self = chosen /\
  tracking_active self = bool_decide (is_Some chosen).
Proof.
  induction names as [|n names IH] using rev_ind.
  - simpl. auto.
  - rewrite set_targets_snoc, filter_app, last_app.
    destruct IH as (Hcat & Hloc & Htarget & Hactive).
    set (self := set_targets (init loc) names) in *.
    assert (Hn : is_Some (assoc n (catalog self))
                 <-> n ∈ get_catalog_objects (init loc)).
    { rewrite Hcat. apply assoc_is_Some. }
    unfold set_target.
    destruct (assoc n (catalog self)) as [entry|] eqn:He.
    + rewrite filter_cons_True by (apply Hn; eauto). simpl. auto.
    + rewrite filter_cons_False, filter_nil
        by (intros Hin; apply Hn in Hin; destruct Hin; discriminate).
      simpl. auto.
Qed.

(** X10.  After any sequence of [set_target] calls on a new simulator the
    catalog and the location are those of the construction, the target is
    the last name of the sequence that is in the catalog, or [None] when
    there is none, and tracking is active, with tracking rates available,
    exactly when there is a target. *)
Theorem set_targets_state (loc : option EarthLocation) (names : list string) :
  let self := set_targets (init loc) names in
  let chosen :=
    last (filter (fun n => n ∈ get_catalog_objects (init loc)) names) in
  catalog self = catalog0 /\
  earth_location self = loc /\
  target_object self = chosen /\
  (tracking_active self = true <-> is_Some chosen) /\
  (is_Some (calculate_tracking_rates self) <-> is_Some chosen).
Proof.
  intros self chosen.
  destruct (set_targets_fields loc names) as (Hcat & Hloc & Htarget & Hactive).
  fold self chosen in Hcat, Hloc, Htarget, Hactive.
  assert (Hiff : tracking_active self = true <-> is_Some chosen).
  { rewrite Hactive. apply bool_decide_eq_true. }
  repeat split; try assumption; try apply Hiff.
  - unfold calculate_tracking_rates.
    destruct (tracking_active self); [intros _; apply Hiff; reflexivity|].
    intros [x Hx]. discriminate.
  - intros Hsome. apply Hiff in Hsome.
    unfold calculate_tracking_rates. rewrite Hsome. eauto.
Qed.


End TargetSequences.

(** ** The serial link *)

Lemma string_app_assoc (s1 s2 s3 : string) :
  ((s1 ++ s2) ++ s3 = s1 ++ s2 ++ s3)%string.
Proof.
  induction s1 as [|c s1 IH]; [reflexivity|].
  change (String c ((s1 ++ s2) ++ s3) = String c (s1 ++ s2 ++ s3))%string.
  f_equal. exact IH.
Qed.

Lemma is_ascii_app (s1 s2 : string) :
  Comunicacion.is_ascii (s1 ++ s2)
  = Comunicacion.is_ascii s1 && Comunicacion.is_ascii s2.
Proof.
  induction s1 as [|c s1 IH]; simpl; [reflexivity|].
  rewrite IH. apply andb_assoc.
Qed.

Lemma is_ascii_pretty_N_char (x : N) :
  (Ascii.nat_of_ascii (pretty_N_char x) <? 128)%nat = true.
Proof. unfold pretty_N_char. repeat case_match; reflexivity. Qed.

Lemma is_ascii_pretty_N_go (x : N) (s : string) :
  Comunicacion.is_ascii s = true ->
  Comunicacion.is_ascii (pretty_N_go x s) = true.
Proof.
  revert s. induction (N.lt_wf_0 x) as [x _ IH]; intros s Hs.
  destruct (decide (x = 0)%N) as [->|Hx].
  - rewrite pretty_N_go_0. exact Hs.
  - rewrite pretty_N_go_step by lia. apply IH.
    + apply N.div_lt; lia.
    + simpl. rewrite is_ascii_pretty_N_char. exact Hs.
Qed.

(** The decimal text of an integer is ASCII. *)
Lemma is_ascii_pretty_Z (z : Z) : Comunicacion.is_ascii (pretty z) = true.
Proof.
  assert (HN : forall n : N, Comunicacion.is_ascii (pretty n) = true).
  { intros n. unfold pretty, pretty_N.
    case_decide; [reflexivity|]. apply is_ascii_pretty_N_go. reflexivity. }
  destruct z as [|p|p]; [reflexivity | apply (HN (N.pos p)) |].
  change (pretty (Z.neg p)) with ("-" +:+ pretty (N.pos p)).
  unfold String.app. simpl. apply (HN (N.pos p)).
Qed.

Lemma is_ascii_join (partes : list string) :
  Forall (fun s => Comunicacion.is_ascii s = true) partes ->
  Comunicacion.is_ascii (Comunicacion.join partes) = true.
Proof.
  induction 1 as [|s rest Hs Hrest IH]; [reflexivity|].
  destruct rest as [|s' rest]; [exact Hs|].
  change (Comunicacion.join (s :: s' :: rest))
    with (s ++ " " ++ Comunicacion.join (s' :: rest)).
  rewrite !is_ascii_app, Hs, IH. reflexivity.
Qed.

Section SerialLink.
Import Comunicacion.
Variable int_of_str : string -> option Z.
Variable ascii_error : string -> Exception.

Lemma partes_ascii (dx dy dz : Z) :
  is_ascii ("M " ++ join (partes dx dy dz) ++ LF) = true.
Proof.
  rewrite !is_ascii_app. simpl. rewrite andb_true_r.
  apply is_ascii_join. unfold partes.
  repeat apply Forall_app_2;
    case_match; constructor; try constructor;
    apply (is_ascii_pretty_Z _).
Qed.

Lemma partes_nil (dx dy dz : Z) :
  partes dx dy dz = [] <-> dx = 0%Z /\ dy = 0%Z /\ dz = 0%Z.
Proof.
  unfold partes.
  destruct (Z.eqb_spec dx 0), (Z.eqb_spec dy 0), (Z.eqb_spec dz 0);
    simpl; split; try discriminate; try tauto; intros (? & ? & ?); tauto.
Qed.

(** A line reaches the port exactly when the port is open, the line is
    ASCII and the write does not raise. *)
Lemma enviar_linea_sent (io : PortIO) (self : CNCApp) (linea : string) :
  connected self = true -> is_ascii (linea ++ LF) = true ->
  (forall e, io <> WriteError e) ->
  wire (enviar_linea ascii_error io self linea)
    = (wire self ++ [(linea ++ LF)%string])%list /\
  connected (enviar_linea ascii_error io self linea) = true.
Proof.
  unfold connected, wire, enviar_linea. intros Hopen Hascii Hio.
  destruct (ser self) as [p|]; [|discriminate].
  rewrite Hopen, Hascii. simpl.
  destruct io as [e|e|resp]; [destruct (Hio e); reflexivity| |]; simpl.
  - auto.
  - destruct (String.eqb resp ""); simpl; auto.
Qed.

Lemma enviar_linea_not_sent (io : PortIO) (self : CNCApp) (linea : string) :
  connected self = false \/ is_ascii (linea ++ LF) = false \/
  (exists e, io = WriteError e) ->
  ser (enviar_linea ascii_error io self linea) = ser self /\
  txt_log (enviar_linea ascii_error io self linea) = txt_log self.
Proof.
  unfold connected, enviar_linea. intros H.
  destruct (ser self) as [p|] eqn:Hser; [|auto].
  destruct (is_open p); [|auto]. simpl.
  destruct (is_ascii (linea ++ LF)); [|auto]. simpl.
  destruct H as [H | [H | [e ->]]]; try discriminate. auto.
Qed.

Lemma enviar_linea_one_line (io : PortIO) (self : CNCApp) (linea : string) :
  at_most_one_line self (enviar_linea ascii_error io self linea).
Proof.
  assert (Hnone : forall l : list string,
            l = (l ++ [])%list /\ (length (@nil string) <= 1)%nat /\
            Forall (fun l => is_ascii l = true /\ exists body, l = body ++ LF) []).
  { intros l. rewrite app_nil_r. repeat split; [simpl; lia | constructor]. }
  unfold at_most_one_line, wire, enviar_linea.
  destruct (ser self) as [p|] eqn:Hser; simpl; rewrite ?Hser;
    [|exists []; apply Hnone].
  destruct (is_open p); simpl; rewrite ?Hser; [|exists []; apply Hnone].
  destruct (is_ascii (linea ++ LF)) eqn:Ha; simpl; rewrite ?Hser;
    [|exists []; apply Hnone].
  assert (Hone : (length [(linea ++ LF)%string] <= 1)%nat /\
            Forall (fun l => is_ascii l = true /\ exists body, l = body ++ LF)
              [(linea ++ LF)%string]).
  { split; [simpl; lia|]. constructor; [eauto | constructor]. }
  destruct io as [e|e|resp]; simpl; rewrite ?Hser.
  - exists []. apply Hnone.
  - exists [(linea ++ LF)%string]. split; [reflexivity | exact Hone].
  - exists [(linea ++ LF)%string].
    destruct (String.eqb resp ""); simpl; (split; [reflexivity | exact Hone]).
Qed.

Lemma at_most_one_line_show (d : Dialog) (self : CNCApp) :
  at_most_one_line self (show d self).
Proof.
  exists []. rewrite app_nil_r. split; [reflexivity|].
  split; [simpl; lia | constructor].
Qed.

Lemma at_most_one_line_refl (self : CNCApp) : at_most_one_line self self.
Proof.
  exists []. rewrite app_nil_r. split; [reflexivity|].
  split; [simpl; lia | constructor].
Qed.

Lemma mover_not_sent (io : PortIO) (self : CNCApp) (sx sy sz : Z) :
  connected self = false ->
  ser (mover int_of_str ascii_error io self sx sy sz) = ser self /\
  txt_log (mover int_of_str ascii_error io self sx sy sz) = txt_log self.
Proof.
  intros Hc. unfold mover.
  destruct (int_of_str (var_paso self)) as [paso|]; [|auto].
  destruct (paso <=? 0)%Z; [auto|].
  fold (partes (sx * paso) (sy * paso) (sz * paso)).
  destruct (partes _ _ _); [auto|].
  apply enviar_linea_not_sent. auto.
Qed.

(** X12.  Nothing goes to a port that is not open.  When the application
    holds no port, or a closed one, none of [enviar_linea], [mover] and
    [enviar_parametros] writes: the port and the log are as before. *)
Theorem closed_port_nothing_sent (self : CNCApp) :
  connected self = false ->
  (forall io linea,
     ser (enviar_linea ascii_error io self linea) = ser self /\
     txt_log (enviar_linea ascii_error io self linea) = txt_log self) /\
  (forall io sx sy sz,
     ser (mover int_of_str ascii_error io self sx sy sz) = ser self /\
     txt_log (mover int_of_str ascii_error io self sx sy sz) = txt_log self) /\
  (forall io,
     ser (enviar_parametros int_of_str ascii_error io self) = ser self /\
     txt_log (enviar_parametros int_of_str ascii_error io self) = txt_log self).
Proof.
  intros Hc. split; [|split].
  - intros io linea. apply enviar_linea_not_sent. auto.
  - intros io sx sy sz. apply mover_not_sent. exact Hc.
  - intros io. unfold enviar_parametros.
    destruct (int_of_str (var_vel self)) as [v|]; [|auto].
    destruct (int_of_str (var_acel self)) as [a|]; [|auto].
    destruct ((v <=? 0)%Z || (a <=? 0)%Z); [auto|].
    apply enviar_linea_not_sent. auto.
Qed.

(** X13.  Every call of [enviar_linea], [mover] or [enviar_parametros] keeps
    the lines already written to the port and adds at most one, and a line
    added is ASCII and ends with a line feed. *)
Theorem wire_grows_by_lines (self : CNCApp) :
  (forall io linea,
     at_most_one_line self (enviar_linea ascii_error io self linea)) /\
  (forall io sx sy sz,
     at_most_one_line self (mover int_of_str ascii_error io self sx sy sz)) /\
  (forall io,
     at_most_one_line self (enviar_parametros int_of_str ascii_error io self)).
Proof.
  split; [|split].
  - intros io linea. apply enviar_linea_one_line.
  - intros io sx sy sz. unfold mover.
    destruct (int_of_str (var_paso self)) as [paso|];
      [|apply at_most_one_line_show].
    destruct (paso <=? 0)%Z; [apply at_most_one_line_show|].
    fold (partes (sx * paso) (sy * paso) (sz * paso)).
    destruct (partes _ _ _);
      [apply at_most_one_line_refl | apply enviar_linea_one_line].
  - intros io. unfold enviar_parametros.
    destruct (int_of_str (var_vel self)) as [v|];
      [|apply at_most_one_line_show].
    destruct (int_of_str (var_acel self)) as [a|];
      [|apply at_most_one_line_show].
    destruct ((v <=? 0)%Z || (a <=? 0)%Z);
      [apply at_most_one_line_show | apply enviar_linea_one_line].
Qed.

Lemma snoc_ne {A : Type} (l : list A) (x : A) : (l ++ [x])%list <> l.
Proof.
  intros H. apply (f_equal length) in H.
  rewrite length_app in H. simpl in H. lia.
Qed.

(** What [mover] does once the step is read as a positive integer. *)
Lemma mover_step (io : PortIO) (self : CNCApp) (sx sy sz paso : Z) :
  int_of_str (var_paso self) = Some paso -> (0 < paso)%Z ->
  mover int_of_str ascii_error io self sx sy sz
  = match partes (sx * paso) (sy * paso) (sz * paso) with
    | [] => self
    | _ => enviar_linea ascii_error io self
             ("M " ++ join (partes (sx * paso) (sy * paso) (sz * paso)))
    end.
Proof.
  intros Hpaso Hpos. unfold mover. rewrite Hpaso.
  destruct (Z.leb_spec paso 0); [lia|]. reflexivity.
Qed.

(** X14.  [mover] writes to the port exactly when the port is open, the step
    entry reads as a positive integer, one of the three directions is not
    zero and the write does not raise; what it writes then is the single line
    made of [M] and one word per axis that moves, in the order X, Y, Z, each
    with its signed displacement, the direction times the step. *)
Theorem mover_sends_iff (io : PortIO) (self : CNCApp) (sx sy sz : Z) :
  let self' := mover int_of_str ascii_error io self sx sy sz in
  (wire self' <> wire self <->
     connected self = true /\
     (exists paso, int_of_str (var_paso self) = Some paso /\ (0 < paso)%Z) /\
     (sx, sy, sz) <> (0, 0, 0)%Z /\
     (forall e, io <> WriteError e)) /\
  (forall paso,
     int_of_str (var_paso self) = Some paso ->
     wire self' <> wire self ->
     wire self'
     = (wire self ++
        [("M " ++ join (partes (sx * paso) (sy * paso) (sz * paso)) ++ LF)
           %string])%list).
Proof.
  intros self'.
  assert (Hcases :
    (wire self' = wire self /\
     ~ (connected self = true /\
        (exists paso, int_of_str (var_paso self) = Some paso /\ (0 < paso)%Z) /\
        (sx, sy, sz) <> (0, 0, 0)%Z /\
        (forall e, io <> WriteError e))) \/
    (exists paso,
       int_of_str (var_paso self) = Some paso /\ (0 < paso)%Z /\
       connected self = true /\ (sx, sy, sz) <> (0, 0, 0)%Z /\
       (forall e, io <> WriteError e) /\
       wire self'
       = (wire self ++
          [("M " ++ join (partes (sx * paso) (sy * paso) (sz * paso)) ++ LF)
             %string])%list)).
  { subst self'.
    destruct (int_of_str (var_paso self)) as [paso|] eqn:Hpaso.
    2: { left. unfold mover. rewrite Hpaso. split; [reflexivity|].
         intros (_ & (q & Hq & _) & _). discriminate. }
    destruct (Z.leb_spec paso 0) as [Hle|Hpos].
    { left. unfold mover. rewrite Hpaso.
      destruct (Z.leb_spec paso 0); [|lia]. split; [reflexivity|].
      intros (_ & (q & Hq & Hq') & _). injection Hq as <-. lia. }
    rewrite (mover_step io self sx sy sz paso Hpaso Hpos).
    destruct (partes (sx * paso) (sy * paso) (sz * paso)) as [|w ws] eqn:Hp.
    { left. split; [reflexivity|]. intros (_ & _ & Hdir & _). apply Hdir.
      apply partes_nil in Hp. destruct Hp as (Hx & Hy & Hz).
      f_equal; [f_equal|]; nia. }
    assert (Hdir : (sx, sy, sz) <> (0, 0, 0)%Z).
    { intros [= -> -> ->]. discriminate Hp. }
    rewrite <- Hp.
    destruct (connected self) eqn:Hc.
    2: { left. split.
         - unfold wire.
           rewrite (proj1 (enviar_linea_not_sent io self _ (or_introl Hc))).
           reflexivity.
         - intros (? & _). discriminate. }
    destruct io as [e|e|resp].
    { left. split.
      - unfold wire.
        rewrite (proj1 (enviar_linea_not_sent (WriteError e) self _
                          (or_intror (or_intror (ex_intro _ e eq_refl))))).
        reflexivity.
      - intros (_ & _ & _ & Hio). exact (Hio e eq_refl). }
    all: right; exists paso; repeat split; auto; try discriminate;
      apply enviar_linea_sent; auto; try discriminate;
      apply partes_ascii. }
  split.
  - split.
    + intros Hne. destruct Hcases as [[Heq _] | (paso & ? & ? & ? & ? & ? & _)];
        [contradiction | eauto 10].
    + intros Hsend. destruct Hcases as [[_ Hno] | (paso & _ & _ & _ & _ & _ & ->)];
        [contradiction | apply snoc_ne].
  - intros paso Hpaso Hne.
    destruct Hcases as [[Heq _] | (q & Hq & _ & _ & _ & _ & ->)];
      [contradiction|].
    rewrite Hq in Hpaso. injection Hpaso as ->. reflexivity.
Qed.

Lemma pretty_Z_opp (p : Z) :
  (0 < p)%Z -> pretty (- p)%Z = ("-" ++ pretty p)%string.
Proof. destruct p; [lia | reflexivity | lia]. Qed.

(** The right arrow: [mover(1, 0, 0)]. *)
Lemma mover_right (io : PortIO) (self : CNCApp) (paso : Z) :
  connected self = true ->
  int_of_str (var_paso self) = Some paso -> (0 < paso)%Z ->
  (forall e, io <> WriteError e) ->
  wire (mover int_of_str ascii_error io self 1 0 0)
  = (wire self ++ [(("M X" ++ pretty paso) ++ LF)%string])%list.
Proof.
  intros Hc Hpaso Hpos Hio.
  assert (Hne : (paso =? 0)%Z = false) by (apply Z.eqb_neq; lia).
  rewrite (mover_step io self _ _ _ paso Hpaso Hpos).
  unfold partes. rewrite Z.mul_1_l, !Z.mul_0_l, Hne. simpl.
  apply enviar_linea_sent; auto.
  rewrite !is_ascii_app, ?is_ascii_pretty_Z. reflexivity.
Qed.

(** X15.  The six jog buttons.  With the port open, the step entry reading
    as the positive integer [paso] and a write that does not raise, each
    button adds one line to the wire: [M X<paso>] and [M X-<paso>] for the
    right and left arrows, [M Y<paso>] and [M Y-<paso>] for the up and down
    arrows, [M Z<paso>] and [M Z-<paso>] for the two Z buttons. *)
Theorem jog_button_lines (io : PortIO) (self : CNCApp) (paso : Z) :
  connected self = true ->
  int_of_str (var_paso self) = Some paso -> (0 < paso)%Z ->
  (forall e, io <> WriteError e) ->
  let sent sx sy sz := wire (mover int_of_str ascii_error io self sx sy sz) in
  let line (word : string) := (wire self ++ [(word ++ LF)%string])%list in
  sent 1%Z 0%Z 0%Z = line ("M X" ++ pretty paso) /\
  sent (-1)%Z 0%Z 0%Z = line ("M X-" ++ pretty paso) /\
  sent 0%Z 1%Z 0%Z = line ("M Y" ++ pretty paso) /\
  sent 0%Z (-1)%Z 0%Z = line ("M Y-" ++ pretty paso) /\
  sent 0%Z 0%Z 1%Z = line ("M Z" ++ pretty paso) /\
  sent 0%Z 0%Z (-1)%Z = line ("M Z-" ++ pretty paso).
Proof.
  intros Hc Hpaso Hpos Hio sent line. subst sent line. cbv beta.
  assert (Hne : (paso =? 0)%Z = false) by (apply Z.eqb_neq; lia).
  assert (Hne' : (- paso =? 0)%Z = false) by (apply Z.eqb_neq; lia).
  repeat split;
    rewrite (mover_step io self _ _ _ paso Hpaso Hpos);
    unfold partes;
    rewrite ?Z.mul_1_l, ?Z.mul_0_l;
    replace (-1 * paso)%Z with (- paso)%Z by lia;
    rewrite ?Hne, ?Hne'; simpl;
    rewrite ?(pretty_Z_opp paso Hpos);
    apply enviar_linea_sent; auto;
    rewrite !is_ascii_app, ?is_ascii_pretty_Z; reflexivity.
Qed.

Lemma parametros_line (v a : Z) :
  ("S " ++ pretty v ++ " " ++ pretty a ++ LF)%string
  = (("S " ++ pretty v ++ " " ++ pretty a) ++ LF)%string.
Proof. simpl. rewrite !string_app_assoc. reflexivity. Qed.

(** X16.  [enviar_parametros] writes to the port exactly when the port is
    open, the speed and acceleration entries both read as positive integers
    and the write does not raise; what it writes then is the single line
    [S <vel> <acel>]. *)
Theorem enviar_parametros_sends_iff (io : PortIO) (self : CNCApp) :
  let self' := enviar_parametros int_of_str ascii_error io self in
  (wire self' <> wire self <->
     connected self = true /\
     (exists v a,
        int_of_str (var_vel self) = Some v /\
        int_of_str (var_acel self) = Some a /\ (0 < v)%Z /\ (0 < a)%Z) /\
     (forall e, io <> WriteError e)) /\
  (forall v a,
     int_of_str (var_vel self) = Some v ->
     int_of_str (var_acel self) = Some a ->
     wire self' <> wire self ->
     wire self'
     = (wire self ++ [("S " ++ pretty v ++ " " ++ pretty a ++ LF)%string])%list).
Proof.
  intros self'.
  assert (Hcases :
    (wire self' = wire self /\
     ~ (connected self = true /\
        (exists v a,
           int_of_str (var_vel self) = Some v /\
           int_of_str (var_acel self) = Some a /\ (0 < v)%Z /\ (0 < a)%Z) /\
        (forall e, io <> WriteError e))) \/
    (exists v a,
       int_of_str (var_vel self) = Some v /\
       int_of_str (var_acel self) = Some a /\ (0 < v)%Z /\ (0 < a)%Z /\
       connected self = true /\ (forall e, io <> WriteError e) /\
       wire self'
       = (wire self ++
          [("S " ++ pretty v ++ " " ++ pretty a ++ LF)%string])%list)).
  { subst self'. unfold enviar_parametros.
    destruct (int_of_str (var_vel self)) as [v|] eqn:Hv.
    2: { left. split; [reflexivity|].
         intros (_ & (? & ? & ? & _) & _). discriminate. }
    destruct (int_of_str (var_acel self)) as [a|] eqn:Ha.
    2: { left. split; [reflexivity|].
         intros (_ & (? & ? & _ & ? & _) & _). discriminate. }
    destruct (Z.leb_spec v 0) as [Hv0|Hv0]; simpl.
    { left. split; [reflexivity|].
      intros (_ & (? & ? & [= <-] & _ & ? & _) & _). lia. }
    destruct (Z.leb_spec a 0) as [Ha0|Ha0]; simpl.
    { left. split; [reflexivity|].
      intros (_ & (? & ? & _ & [= <-] & _ & ?) & _). lia. }
    destruct (connected self) eqn:Hc.
    2: { left. split.
         - unfold wire.
           rewrite (proj1 (enviar_linea_not_sent io self _ (or_introl Hc))).
           reflexivity.
         - intros (? & _). discriminate. }
    destruct io as [e|e|resp].
    { left. split.
      - unfold wire.
        rewrite (proj1 (enviar_linea_not_sent (WriteError e) self _
                          (or_intror (or_intror (ex_intro _ e eq_refl))))).
        reflexivity.
      - intros (_ & _ & Hio). exact (Hio e eq_refl). }
    all: right; exists v, a; repeat split; auto; try discriminate;
      rewrite (parametros_line v a);
      apply enviar_linea_sent; auto; try discriminate;
      rewrite !is_ascii_app, !is_ascii_pretty_Z; reflexivity. }
  split.
  - split.
    + intros Hne.
      destruct Hcases as [[Heq _] | (v & a & ? & ? & ? & ? & ? & ? & _)];
        [contradiction | eauto 10].
    + intros Hsend.
      destruct Hcases as [[_ Hno] | (v & a & _ & _ & _ & _ & _ & _ & ->)];
        [contradiction | apply snoc_ne].
  - intros v a Hv Ha Hne.
    destruct Hcases as [[Heq _] | (v' & a' & Hv' & Ha' & _ & _ & _ & _ & ->)];
      [contradiction|].
    rewrite Hv' in Hv. rewrite Ha' in Ha.
    injection Hv as ->. injection Ha as ->. reflexivity.
Qed.

(** A disconnection whose [close] does not raise leaves the port closed,
    the lines written as they are, the jog buttons disabled and the
    connection button enabled. *)
Lemma desconectar_closed (self : CNCApp) :
  let self' := desconectar (inr tt) self in
  connected self' = false /\ wire self' = wire self /\
  jog_buttons self' = false /\ btn_con self' = true /\ btn_des self' = false /\
  var_paso self' = var_paso self.
Proof.
  unfold desconectar, connected, wire.
  destruct (ser self) as [p|] eqn:Hser; simpl; rewrite ?Hser; [|auto 10].
  destruct (is_open p) eqn:Hopen; simpl; rewrite ?Hser, ?Hopen; auto 10.
Qed.

(** The three buttons states are not touched by [enviar_linea] and
    [mover]. *)
Lemma enviar_linea_buttons (io : PortIO) (self : CNCApp) (linea : string) :
  let self' := enviar_linea ascii_error io self linea in
  jog_buttons self' = jog_buttons self /\ btn_con self' = btn_con self /\
  btn_des self' = btn_des self.
Proof.
  unfold enviar_linea.
  destruct (ser self) as [p|]; [|auto].
  destruct (is_open p); simpl; [|auto].
  destruct (is_ascii (linea ++ LF)); simpl; [|auto].
  destruct io as [e|e|resp]; simpl; auto.
  destruct (String.eqb resp ""); simpl; auto.
Qed.

Lemma mover_buttons (io : PortIO) (self : CNCApp) (sx sy sz : Z) :
  let self' := mover int_of_str ascii_error io self sx sy sz in
  jog_buttons self' = jog_buttons self /\ btn_con self' = btn_con self /\
  btn_des self' = btn_des self.
Proof.
  unfold mover.
  destruct (int_of_str (var_paso self)) as [paso|]; [|simpl; auto].
  destruct (paso <=? 0)%Z; [simpl; auto|].
  fold (partes (sx * paso) (sy * paso) (sz * paso)).
  destruct (partes _ _ _); [auto | apply enviar_linea_buttons].
Qed.

(** X17.  A session.  Connecting to a chosen port that opens, pressing the
    right arrow, disconnecting and pressing the right arrow again puts
    exactly one line on the wire, [M X<paso>]: the port starts with nothing
    written, the first jog is written, and after the disconnection the port
    is closed, the jog buttons are disabled and the second jog writes
    nothing. *)
Theorem jog_session (self : CNCApp) (io1 io2 : PortIO) (paso : Z) :
  cmb_port self <> "" ->
  int_of_str (var_paso self) = Some paso -> (0 < paso)%Z ->
  (forall e, io1 <> WriteError e) ->
  let s1 := conectar (inr tt) self in
  let s2 := mover int_of_str ascii_error io1 s1 1 0 0 in
  let s3 := desconectar (inr tt) s2 in
  let s4 := mover int_of_str ascii_error io2 s3 1 0 0 in
  wire s1 = [] /\ connected s1 = true /\ jog_buttons s1 = true /\
  wire s2 = [("M X" ++ pretty paso ++ LF)%string] /\
  connected s3 = false /\
  wire s4 = wire s2 /\ connected s4 = false /\
  jog_buttons s4 = false /\ btn_con s4 = true /\ btn_des s4 = false.
Proof.
  intros Hport Hpaso Hpos Hio s1 s2 s3 s4.
  assert (H1 : wire s1 = [] /\ connected s1 = true /\ jog_buttons s1 = true /\
               var_paso s1 = var_paso self).
  { subst s1. unfold conectar.
    apply String.eqb_neq in Hport. rewrite Hport. auto. }
  destruct H1 as (Hw1 & Hc1 & Hj1 & Hp1).
  assert (Hw2 : wire s2 = [("M X" ++ pretty paso ++ LF)%string]).
  { subst s2.
    rewrite (mover_right io1 s1 paso Hc1
               (eq_trans (f_equal int_of_str Hp1) Hpaso) Hpos Hio).
    rewrite Hw1. reflexivity. }
  destruct (desconectar_closed s2) as (Hc3 & Hw3 & Hj3 & Hbc3 & Hbd3 & _).
  fold s3 in Hc3, Hw3, Hj3, Hbc3, Hbd3.
  destruct (mover_not_sent io2 s3 1 0 0 Hc3) as [Hser4 _]. fold s4 in Hser4.
  destruct (mover_buttons io2 s3 1 0 0) as (Hj4 & Hbc4 & Hbd4).
  fold s4 in Hj4, Hbc4, Hbd4.
  assert (Hw4 : wire s4 = wire s3) by (unfold wire; rewrite Hser4; reflexivity).
  assert (Hc4 : connected s4 = connected s3)
    by (unfold connected; rewrite Hser4; reflexivity).
  repeat split; try assumption; congruence.
Qed.

End SerialLink.

(** ** The target selector of the advanced window *)

Section TargetSelector.
Import AdvancedGui.
Context `{AP : Astropy}.

Lemma select_same (self : AdvancedAstrotrackerGUI) :
  select self (selected_target_index self) = self.
Proof. destruct self; reflexivity. Qed.

Lemma select_select (self : AdvancedAstrotrackerGUI) (i j : Z) :
  select (select self i) j = select self j.
Proof. reflexivity. Qed.

Lemma rows_from_lookup (self : AdvancedAstrotrackerGUI) (start_index : Z)
    (names : list string) (i k : nat) :
  rows_from self start_index names i !! k
  = if bool_decide (k < i)%nat
    then row self (start_index + Z.of_nat k) <$> names !! k
    else None.
Proof.
  revert start_index names k.
  induction i as [|i IH]; intros start_index names k.
  - destruct names; case_bool_decide; try lia; reflexivity.
  - destruct names as [|target_name names];
      [case_bool_decide; reflexivity|].
    destruct k as [|k].
    + rewrite bool_decide_eq_true_2 by lia. simpl.
      rewrite Z.add_0_r. reflexivity.
    + change (rows_from self (start_index + 1) names i !! k
              = if bool_decide (S k < S i)%nat
                then row self (start_index + Z.of_nat (S k)) <$> names !! k
                else None).
      rewrite IH.
      replace (start_index + 1 + Z.of_nat k)%Z
        with (start_index + Z.of_nat (S k))%Z by lia.
      repeat case_bool_decide; try lia; reflexivity.
Qed.

Lemma py_index_in_range {A : Type} (l : list A) (i : Z) :
  (0 <= i < Z.of_nat (length l))%Z -> py_index l i = l !! Z.to_nat i.
Proof.
  intros Hi. unfold py_index.
  destruct (Z.leb_spec 0 i); [reflexivity | lia].
Qed.

(** X18.  The selection stays inside the list.  When the selected index is
    an index of the list of targets, no key of the selector raises, the
    list is not changed, and the selected index afterwards is again an index
    of the list; so that [available_targets[selected_target_index]] never
    raises [IndexError]. *)
Theorem key_down_in_range (self : AdvancedAstrotrackerGUI) (key : Key) :
  let n := Z.of_nat (length (available_targets self)) in
  (0 <= selected_target_index self < n)%Z ->
  exists self',
    key_down self key = inr self' /\
    available_targets self' = available_targets self /\
    (0 <= selected_target_index self' < n)%Z.
Proof.
  intros n Hi. subst n. unfold key_down.
  destruct (available_targets self) as [|t ts] eqn:Hl; [simpl in Hi; lia|].
  set (n := Z.of_nat (length (t :: ts))) in *.
  destruct key.
  - eexists. split; [reflexivity|]. simpl. rewrite Hl. split; [reflexivity|].
    apply Z.mod_pos_bound. lia.
  - eexists. split; [reflexivity|]. simpl. rewrite Hl. split; [reflexivity|].
    apply Z.mod_pos_bound. lia.
  - destruct (simulator self) as [sim|]; [|eauto].
    rewrite (py_index_in_range (t :: ts) _ Hi).
    destruct (lookup_lt_is_Some_2 (t :: ts)
                (Z.to_nat (selected_target_index self))) as [name Hname];
      [subst n; lia|].
    rewrite Hname.
    destruct (AstroSimulator.set_target sim name) as [sim' found].
    eexists. split; [reflexivity|]. simpl. auto.
  - destruct (simulator self) as [sim|]; [|eauto].
    eexists. split; [reflexivity|]. simpl. auto.
Qed.

(** X19.  The up and down arrows undo each other: from a selected index
    inside the list, the up arrow followed by the down arrow, and the down
    arrow followed by the up arrow, give the window back as it was; the
    selection wraps around the ends of the list. *)
Theorem key_up_down_inverse (self : AdvancedAstrotrackerGUI) :
  (0 <= selected_target_index self
   < Z.of_nat (length (available_targets self)))%Z ->
  (exists self',
     key_down self K_UP = inr self' /\ key_down self' K_DOWN = inr self) /\
  (exists self',
     key_down self K_DOWN = inr self' /\ key_down self' K_UP = inr self).
Proof.
  intros Hi. unfold key_down.
  destruct (available_targets self) as [|t ts] eqn:Hl; [simpl in Hi; lia|].
  set (n := Z.of_nat (length (t :: ts))) in *.
  assert (Hn : (0 < n)%Z) by lia.
  split; eexists; (split; [reflexivity|]); simpl; rewrite Hl; fold n;
    rewrite select_select; f_equal.
  - rewrite Z.add_mod_idemp_l by lia.
    replace (selected_target_index self - 1 + 1)%Z
      with (selected_target_index self) by lia.
    rewrite Z.mod_small by lia. apply select_same.
  - rewrite Zminus_mod_idemp_l.
    replace (selected_target_index self + 1 - 1)%Z
      with (selected_target_index self) by lia.
    rewrite Z.mod_small by lia. apply select_same.
Qed.

(** X20.  The selected target is on the screen.  When the selected index is
    an index of the list of targets, [draw_target_selector] draws at most
    eight rows, and one of them, and only one, has the highlight: the row of
    the selected target, with its name after the marker of the current
    target or else of the selection. *)
Theorem selected_row_drawn (self : AdvancedAstrotrackerGUI) :
  (0 <= selected_target_index self
   < Z.of_nat (length (available_targets self)))%Z ->
  exists (k : nat) (target_name : string),
    (k < 8)%nat /\
    available_targets self !! Z.to_nat (selected_target_index self)
      = Some target_name /\
    draw_target_selector self !! k
      = Some {| target_index := selected_target_index self;
                text := (if bool_decide (Some target_name = current_target self)
                         then "► " else "• ") ++ target_name;
                highlight := true |} /\
    (forall (k' : nat) (r : Row),
       draw_target_selector self !! k' = Some r ->
       (k' < 8)%nat /\ (highlight r = true -> k' = k)).
Proof.
  intros Hi. unfold draw_target_selector.
  destruct (available_targets self) as [|t ts] eqn:Hl; [simpl in Hi; lia|].
  rewrite <- Hl in *. clear t ts Hl.
  set (sel := selected_target_index self) in *.
  set (n := Z.of_nat (length (available_targets self))) in *.
  set (start := Z.max 0 (Z.min (sel - 8 / 2) (n - 8))).
  assert (Hdiv : (8 / 2 = 4)%Z) by reflexivity.
  assert (Hstart : (0 <= start <= sel /\ sel < start + 8)%Z)
    by (subst start; rewrite Hdiv; lia).
  destruct (lookup_lt_is_Some_2 (available_targets self) (Z.to_nat sel))
    as [name Hname]; [subst n; lia|].
  exists (Z.to_nat (sel - start)), name.
  split; [lia|]. split; [exact Hname|].
  assert (Hrow : forall k' : nat,
            rows_from self start (drop (Z.to_nat start) (available_targets self))
              (Z.to_nat 8) !! k'
            = if bool_decide (k' < 8)%nat
              then row self (start + Z.of_nat k')
                   <$> available_targets self !! (Z.to_nat start + k')%nat
              else None).
  { intros k'. rewrite rows_from_lookup, lookup_drop. reflexivity. }
  split.
  - rewrite Hrow, bool_decide_eq_true_2 by lia.
    replace (Z.to_nat start + Z.to_nat (sel - start))%nat
      with (Z.to_nat sel) by lia.
    rewrite Hname. simpl. unfold row.
    replace (start + Z.of_nat (Z.to_nat (sel - start)))%Z with sel by lia.
    fold sel. rewrite Z.eqb_refl. reflexivity.
  - intros k' r. rewrite Hrow. case_bool_decide; [|discriminate].
    destruct (available_targets self !! (Z.to_nat start + k')%nat)
      as [name'|]; [|discriminate].
    simpl. intros [= <-]. split; [assumption|]. simpl. fold sel.
    intros Heq. apply Z.eqb_eq in Heq. lia.
Qed.

(** X21.  The return key starts the tracking of the selected target.  In a
    window whose list of targets is the list of catalog objects of its
    simulator, as [setup_simulator] makes it, and whose selected index is an
    index of the list, the return key makes the selected name the target of
    the simulator and the current target of the window, activates tracking,
    so that tracking rates are available, and announces it in the status. *)
Theorem key_return_tracks (self : AdvancedAstrotrackerGUI)
    (sim : AstroSimulator.AstroTrackingSimulator) :
  simulator self = Some sim ->
  available_targets self = AstroSimulator.get_catalog_objects sim ->
  (0 <= selected_target_index self
   < Z.of_nat (length (available_targets self)))%Z ->
  exists target_name self' sim',
    available_targets self !! Z.to_nat (selected_target_index self)
      = Some target_name /\
    key_down self K_RETURN = inr self' /\
    simulator self' = Some sim' /\
    AstroSimulator.target_object sim' = Some target_name /\
    AstroSimulator.tracking_active sim' = true /\
    is_Some (AstroSimulator.calculate_tracking_rates sim') /\
    current_target self' = Some target_name /\
    tracking_status self' = "Iniciando seguimiento de " ++ target_name /\
    selected_target_index self' = selected_target_index self.
Proof.
  intros Hsim Htargets Hi.
  destruct (lookup_lt_is_Some_2 (available_targets self)
              (Z.to_nat (selected_target_index self))) as [name Hname]; [lia|].
  assert (Hin : name ∈ AstroSimulator.get_catalog_objects sim).
  { rewrite <- Htargets. eapply list_elem_of_lookup_2, Hname. }
  apply assoc_is_Some in Hin. destruct Hin as [entry Hentry].
  exists name. unfold key_down. rewrite Hsim.
  destruct (available_targets self) as [|t ts] eqn:Hl; [simpl in Hi; lia|].
  rewrite (py_index_in_range (t :: ts) _ Hi), Hname.
  unfold AstroSimulator.set_target. rewrite Hentry.
  eexists _, _. repeat split; eauto.
Qed.



(** X23.  Stopping sticks.  After the space key the window has no current
    target, coordinates or telescope position, and the updates that follow
    leave it so, with the status [Seguimiento detenido]; the simulator has
    tracking switched off, so that it gives no tracking rates, and still
    holds the target it had. *)
Theorem key_space_stops (tick : Tick) (self : AdvancedAstrotrackerGUI)
    (sim : AstroSimulator.AstroTrackingSimulator) :
  simulator self = Some sim ->
  exists self' sim',
    key_down self K_SPACE = inr self' /\
    simulator self' = Some sim' /\
    AstroSimulator.calculate_tracking_rates sim' = None /\
    AstroSimulator.target_object sim' = AstroSimulator.target_object sim /\
    let self'' := update_astronomical_data tick self' in
    simulator self'' = Some sim' /\
    current_target self'' = None /\
    target_coords self'' = None /\
    telescope_pos self'' = None /\
    tracking_status self'' = "Seguimiento detenido".
Proof.
  intros Hsim. unfold key_down. rewrite Hsim.
  eexists _, _. split; [reflexivity|]. simpl. auto 10.
Qed.

End TargetSelector.

(** ** Saving and loading, the failures *)

Section SaveLoadFailures.
Import Ubicacion.
Context `{AP : Astropy}.


(** X25.  The ways a load fails.  [cargar_ubicacion] returns [None] exactly
    when the path has no file, or the file is not JSON, or the document is
    not a dictionary, or the latitude and longitude are both true values and
    [EarthLocation] refuses them.  In the first two cases the instance is as
    before; in the other two its current location is the document all the
    same.  In no case is the [EarthLocation] of the instance changed by a
    load that returns [None]. *)
Theorem cargar_ubicacion_none (self : UbicacionManager) (fs : FileSystem)
    (archivo : string) :
  let self' := fst (cargar_ubicacion self fs archivo) in
  (snd (cargar_ubicacion self fs archivo) = None <->
     files fs !! archivo = None \/
     files fs !! archivo = Some NotJson \/
     (exists v, files fs !! archivo = Some (JsonDocument v) /\
                forall kvs, v <> PyDict kvs) \/
     (exists kvs e,
        files fs !! archivo = Some (JsonDocument (PyDict kvs)) /\
        truthy (default PyNone (assoc "latitud" kvs)) = true /\
        truthy (default PyNone (assoc "longitud" kvs)) = true /\
        EarthLocation_new (default PyNone (assoc "latitud" kvs))
          (default PyNone (assoc "longitud" kvs))
          (default (PyInt 0) (assoc "altitud" kvs)) = inl e)) /\
  (files fs !! archivo = None \/ files fs !! archivo = Some NotJson ->
   self' = self) /\
  (forall v, files fs !! archivo = Some (JsonDocument v) ->
             ubicacion_actual self' = v) /\
  (snd (cargar_ubicacion self fs archivo) = None ->
   earth_location self' = earth_location self).
Proof.
  unfold cargar_ubicacion.
  destruct (files fs !! archivo) as [[v|]|] eqn:Hfile; simpl.
  - assert (Hdoc : forall v', Some (JsonDocument v) = Some (JsonDocument v')
                              -> v = v') by (intros v' [= ->]; reflexivity).
    assert (Hnodict : (forall kvs, v <> PyDict kvs) ->
              (None = None :> option PyVal) <->
              Some (JsonDocument v) = None \/
              Some (JsonDocument v) = Some NotJson \/
              (exists v', Some (JsonDocument v) = Some (JsonDocument v') /\
                          forall kvs, v' <> PyDict kvs) \/
              (exists kvs e,
                 Some (JsonDocument v) = Some (JsonDocument (PyDict kvs)) /\
                 truthy (default PyNone (assoc "latitud" kvs)) = true /\
                 truthy (default PyNone (assoc "longitud" kvs)) = true /\
                 EarthLocation_new (default PyNone (assoc "latitud" kvs))
                   (default PyNone (assoc "longitud" kvs))
                   (default (PyInt 0) (assoc "altitud" kvs)) = inl e)).
    { intros Hv. split; [|reflexivity]. intros _. right. right. left. eauto. }
    destruct v as [| | | | | |kvs];
      try (simpl; split; [apply Hnodict; discriminate|];
           split; [intros [H | H]; discriminate|];
           split; [intros v' Hv'; apply Hdoc, Hv' | auto]).
    clear Hnodict.
    destruct (truthy (default PyNone (assoc "latitud" kvs))) eqn:Hlat;
      destruct (truthy (default PyNone (assoc "longitud" kvs))) eqn:Hlon;
      simpl;
      [destruct (EarthLocation_new _ _ _) as [e|loc] eqn:Hnew; simpl| | |].
    1: { split; [|split; [intros [H | H]; discriminate|
                    split; [intros v' Hv'; apply Hdoc, Hv'
                           | auto]]].
         split; [|reflexivity]. intros _. right. right. right.
         exists kvs, e. auto. }
    all: split;
      [split; [discriminate|];
       intros [H | [H | [(v' & Hv' & Hno) | (k & e & Hk & Hl1 & Hl2 & He)]]];
       [discriminate | discriminate
       | apply Hdoc in Hv'; subst v'; destruct (Hno kvs eq_refl)
       | apply Hdoc in Hk; injection Hk as <-; congruence]
      | split; [intros [H | H]; discriminate|
          split; [intros v' Hv'; apply Hdoc, Hv' | discriminate]]].
  - split; [split; auto|]. split; [auto|].
    split; [discriminate | auto].
  - split; [split; auto|]. split; [auto|].
    split; [discriminate | auto].
Qed.

End SaveLoadFailures.

(** ** The detailed information *)

Lemma assoc_dict_set (k k' : string) (v : PyVal) (kvs : list (string * PyVal)) :
  assoc k (Ubicacion.dict_set k' v kvs)
  = if String.eqb k k' then Some v else assoc k kvs.
Proof.
  induction kvs as [|[k0 v0] rest IH]; simpl.
  - reflexivity.
  - destruct (String.eqb k' k0) eqn:E; simpl.
    + apply String.eqb_eq in E. subst k0.
      destruct (String.eqb k k'); reflexivity.
    + rewrite IH.
      destruct (String.eqb k k0) eqn:E0, (String.eqb k k') eqn:E'; try reflexivity.
      apply String.eqb_eq in E0, E'. subst k0 k'.
      rewrite String.eqb_refl in E. discriminate.
Qed.

Section DetailedInformation.
Import Ubicacion.
Context `{AP : Astropy}.
Variable index_error : PyVal -> Exception.

Lemma proveedores_reverse_loop_skipped (net : Network) (lat lon : PyVal)
    (before rest : list string) :
  Forall (fun q => match reverse net q lat lon with
                   | inl _ => True
                   | inr g => r_ok g = false
                   end) before ->
  proveedores_reverse_loop net lat lon (before ++ rest)
  = proveedores_reverse_loop net lat lon rest.
Proof.
  induction 1 as [|q before Hq _ IH]; [reflexivity|].
  simpl. destruct (reverse net q lat lon) as [e|g]; [exact IH|].
  rewrite Hq. exact IH.
Qed.

Lemma proveedores_reverse_loop_some (net : Network) (lat lon : PyVal)
    (proveedores : list string) (p : string) (g : ReverseGeocoded) :
  proveedores_reverse_loop net lat lon proveedores = Some (p, g) ->
  p ∈ proveedores /\ reverse net p lat lon = inr g /\ r_ok g = true.
Proof.
  induction proveedores as [|q rest IH]; [discriminate|].
  simpl. destruct (reverse net q lat lon) as [e|g'] eqn:Hq.
  - intros H. destruct (IH H) as (Hin & Hrest). split; [right; exact Hin | exact Hrest].
  - destruct (r_ok g') eqn:Hok.
    + intros [= <- <-]. split; [left|]; auto.
    + intros H. destruct (IH H) as (Hin & Hrest).
      split; [right; exact Hin | exact Hrest].
Qed.

(** X26.  What the detailed information leaves alone.  On an instance whose
    location is a true value, [obtener_informacion_detallada] never touches
    the [EarthLocation]; it raises exactly when the location is no dictionary
    or a dictionary without latitude, and the instance is then as before;
    when it returns, it returns the current location; and on a dictionary
    the keys other than the four that it adds keep their values, the
    coordinates among them. *)
Theorem obtener_informacion_detallada_frame (net : Network)
    (self : UbicacionManager) :
  truthy (ubicacion_actual self) = true ->
  let self' := fst (obtener_informacion_detallada index_error net self) in
  let r := snd (obtener_informacion_detallada index_error net self) in
  earth_location self' = earth_location self /\
  (forall v, r = inr v -> ubicacion_actual self' = v) /\
  (forall e, r = inl e -> self' = self) /\
  ((exists e, r = inl e) <->
   forall kvs, ubicacion_actual self = PyDict kvs -> assoc "latitud" kvs = None) /\
  (forall kvs, ubicacion_actual self = PyDict kvs ->
     exists kvs',
       ubicacion_actual self' = PyDict kvs' /\
       forall k,
         k ∉ ["direccion_completa"; "codigo_postal"; "barrio";
              "proveedor_detalle"] ->
         assoc k kvs' = assoc k kvs).
Proof.
  intros Htrue self' r. subst self' r.
  set (out := obtener_informacion_detallada index_error net self).
  pattern out. set (P := fun o : Outcome PyVal => _).
  assert (Hraise : forall e,
            (forall kvs, ubicacion_actual self = PyDict kvs ->
                         assoc "latitud" kvs = None) ->
            P (self, inl e)).
  { intros e Hno. subst P. cbv beta. simpl.
    split; [reflexivity|]. split; [discriminate|]. split; [reflexivity|].
    split; [split; [intros _; exact Hno | eauto]|].
    intros kvs Hu. exists kvs. auto. }
  assert (Hkeep : forall kvs lat,
            ubicacion_actual self = PyDict kvs ->
            assoc "latitud" kvs = Some lat ->
            P (self, inr (PyDict kvs))).
  { intros kvs lat Hu Hlat. subst P. cbv beta. simpl.
    split; [reflexivity|]. split; [intros v [= <-]; exact Hu|].
    split; [discriminate|].
    split; [split; [intros [e He]; discriminate
                   | intros H; specialize (H kvs Hu); congruence]|].
    intros kvs0 Hu0. exists kvs0. auto. }
  subst out. unfold obtener_informacion_detallada.
  rewrite Htrue. cbv zeta. rewrite Htrue.
  destruct (ubicacion_actual self) as [|b|n|x|str|xs|kvs] eqn:Hu;
    try (apply Hraise; discriminate).
  destruct (assoc "latitud" kvs) as [lat|] eqn:Hlat;
    [|apply Hraise; intros kvs0 [= <-]; exact Hlat].
  destruct (truthy lat); [|apply (Hkeep kvs lat eq_refl Hlat)].
  destruct (assoc "longitud" kvs) as [lon|];
    [|apply (Hkeep kvs lat eq_refl Hlat)].
  destruct (proveedores_reverse_loop net lat lon _) as [[p g]|];
    [|apply (Hkeep kvs lat eq_refl Hlat)].
  subst P. cbv beta. simpl.
  split; [reflexivity|]. split; [intros v [= <-]; reflexivity|].
  split; [discriminate|].
  split; [split; [intros [e He]; discriminate
                 | intros H; specialize (H kvs eq_refl); congruence]|].
  intros kvs0 [= <-]. eexists. split; [reflexivity|].
  intros k Hk. unfold dict_update. simpl. rewrite !assoc_dict_set.
  repeat (destruct (String.eqb k _) eqn:Heqb;
          [exfalso; apply Hk; apply String.eqb_eq in Heqb; subst k;
           apply (bool_decide_unpack _); vm_compute; exact I
          | clear Heqb]).
  reflexivity.
Qed.

(** X27.  The first reverse provider that answers gives the details.  On a
    dictionary whose latitude is a true value and that has a longitude,
    when the providers among arcgis and here that come before [p] raise or
    answer without [ok] and [p] answers [ok], the method returns the
    location with the address, postal code and neighbourhood of that answer
    and the name [p] under the four detail keys, and makes it the current
    location; when neither provider answers [ok] it returns the location as
    it is and leaves the instance unchanged. *)
Theorem obtener_informacion_detallada_first_ok (net : Network)
    (self : UbicacionManager) (kvs : list (string * PyVal)) (lat lon : PyVal) :
  ubicacion_actual self = PyDict kvs ->
  assoc "latitud" kvs = Some lat -> truthy lat = true ->
  assoc "longitud" kvs = Some lon ->
  let skipped q :=
    match reverse net q lat lon with
    | inl _ => True
    | inr g => r_ok g = false
    end in
  (forall before p after g,
     ["arcgis"; "here"] = (before ++ p :: after)%list ->
     Forall skipped before ->
     reverse net p lat lon = inr g -> r_ok g = true ->
     exists kvs',
       obtener_informacion_detallada index_error net self
       = ({| ubicacion_actual := PyDict kvs';
             earth_location := earth_location self |}, inr (PyDict kvs')) /\
       assoc "direccion_completa" kvs' = Some (r_address g) /\
       assoc "codigo_postal" kvs' = Some (postal g) /\
       assoc "barrio" kvs' = Some (neighborhood g) /\
       assoc "proveedor_detalle" kvs' = Some (PyStr p) /\
       assoc "latitud" kvs' = Some lat /\
       assoc "longitud" kvs' = Some lon) /\
  (Forall skipped ["arcgis"; "here"] ->
   obtener_informacion_detallada index_error net self
   = (self, inr (PyDict kvs))).
Proof.
  intros Hu Hlat Htrue Hlon skipped.
  assert (Hnonempty : truthy (PyDict kvs) = true).
  { destruct kvs; [discriminate|reflexivity]. }
  assert (Hstart : forall found,
            proveedores_reverse_loop net lat lon ["arcgis"; "here"] = found ->
            obtener_informacion_detallada index_error net self
            = match found with
              | Some (proveedor, g) =>
                  let ubicacion :=
                    PyDict
                      (dict_update kvs
                         [ ("direccion_completa", r_address g);
                           ("codigo_postal", postal g);
                           ("barrio", neighborhood g);
                           ("proveedor_detalle", PyStr proveedor) ]) in
                  ({| ubicacion_actual := ubicacion;
                      earth_location := earth_location self |}, inr ubicacion)
              | None => (self, inr (PyDict kvs))
              end).
  { intros found Hfound. unfold obtener_informacion_detallada.
    rewrite Hu, Hnonempty. cbv zeta. rewrite Hu, Hnonempty, Hlat, Htrue, Hlon.
    rewrite Hfound. reflexivity. }
  split.
  - intros before p after g Hsplit Hbefore Hp Hok.
    assert (Hfound : proveedores_reverse_loop net lat lon ["arcgis"; "here"]
                     = Some (p, g)).
    { rewrite Hsplit, (proveedores_reverse_loop_skipped _ _ _ _ _ Hbefore).
      simpl. rewrite Hp, Hok. reflexivity. }
    rewrite (Hstart _ Hfound). eexists. split; [reflexivity|].
    unfold dict_update. simpl. rewrite !assoc_dict_set. simpl.
    repeat split; assumption.
  - intros Hall.
    assert (Hfound : proveedores_reverse_loop net lat lon ["arcgis"; "here"]
                     = None).
    { rewrite <- (app_nil_r ["arcgis"; "here"]).
      rewrite (proveedores_reverse_loop_skipped _ _ _ _ _ Hall). reflexivity. }
    rewrite (Hstart _ Hfound). reflexivity.
Qed.

(** X28.  Without a network there are no details and no failure: on an
    instance that has no location, when the query by IP and the three
    alternative providers all raise or answer without [ok],
    [obtener_informacion_detallada] returns the empty location that the
    instance had, asks no reverse provider and leaves the instance
    unchanged. *)
Theorem obtener_informacion_detallada_offline (net : Network)
    (self : UbicacionManager) :
  truthy (ubicacion_actual self) = false ->
  Forall (fun q => match geocode net q Me with
                   | inl _ => True
                   | inr g => ok g = false
                   end) ["ip"; "ipapi"; "freegeoip"; "maxmind"] ->
  obtener_informacion_detallada index_error net self
  = (self, inr (ubicacion_actual self)).
Proof.
  intros Hfalse Hall.
  apply Forall_cons_1 in Hall. destruct Hall as [Hip Halt].
  assert (Hfetch : obtener_ubicacion net self true = (self, None)).
  { unfold obtener_ubicacion, obtener_ubicacion_automatica.
    destruct (geocode net "ip" Me) as [e|g].
    - apply alternativa_loop_all_skipped. exact Halt.
    - rewrite Hip. apply alternativa_loop_all_skipped. exact Halt. }
  unfold obtener_informacion_detallada.
  rewrite Hfalse, Hfetch. cbv zeta. simpl. rewrite Hfalse. reflexivity.
Qed.

End DetailedInformation.

(** ** Runs of the further properties *)

Section FurtherRuns.
Import Planetarium.
Local Open Scope Z_scope.



(** With no provider in reach the manager is left as it was. *)
Lemma obtener_ubicacion_alternativa_none_witness :
  Ubicacion.obtener_ubicacion_alternativa (AP := dusk) offline Ubicacion.init
  = (Ubicacion.init, None).
Proof.
  apply (proj2 (obtener_ubicacion_alternativa_none (AP := dusk) offline
                  Ubicacion.init)).
  repeat constructor.
Defined.

Lemma obtener_ubicacion_automatic_first_witness :
  exists self' ubicacion,
    Ubicacion.obtener_ubicacion (AP := dusk) online Ubicacion.init true
      = (self', Some ubicacion) /\
    fst (Ubicacion.obtener_ubicacion (AP := dusk) online Ubicacion.init false)
      = Ubicacion.init.
Proof.
  eexists _, _.
  destruct (obtener_ubicacion_automatic_first (AP := dusk) online online
              Ubicacion.init _ _ eq_refl eq_refl eq_refl)
    as (Hrun & _ & Hkeep & _).
  split; [exact Hrun | exact Hkeep].
Defined.

(** Quito by address: arcgis cannot be reached and here answers. *)
Lemma obtener_ubicacion_por_direccion_location_witness :
  exists self' ubicacion,
    Ubicacion.obtener_ubicacion_por_direccion (AP := dusk) patchy
      "Quito, Ecuador" Ubicacion.init = (self', Some ubicacion) /\
    is_Some (Ubicacion.earth_location self').
Proof.
  eexists _, _. split; [reflexivity|].
  destruct (obtener_ubicacion_por_direccion_location (AP := dusk) patchy
              "Quito, Ecuador" Ubicacion.init _ _ eq_refl)
    as (p & g & latitud & longitud & loc & kvs & _ & _ & _ & _ & _ & Hloc & _).
  exists loc. exact Hloc.
Defined.

Lemma por_direccion_guardar_cargar_zero_witness :
  exists self' kvs loc fs',
    Ubicacion.obtener_ubicacion_por_direccion (AP := dusk) patchy
      "Quito, Ecuador" Ubicacion.init = (self', Some (PyDict kvs)) /\
    Ubicacion.earth_location self' = Some loc /\
    Ubicacion.guardar_ubicacion self' empty_disk "ubicacion_config.json"
      = (fs', true) /\
    Ubicacion.earth_location
      (fst (Ubicacion.cargar_ubicacion (Ubicacion.init (AP := dusk)) fs'
              "ubicacion_config.json")) = None.
Proof.
  eexists _, _.
  destruct (por_direccion_guardar_cargar_zero (AP := dusk) patchy
              "Quito, Ecuador" Ubicacion.init _ _ empty_disk
              "ubicacion_config.json" eq_refl (or_introl eq_refl))
    as (loc & fs' & Hloc & Hsave & Hload).
  - apply (bool_decide_unpack _). vm_compute. exact I.
  - exists loc, fs'. split; [reflexivity|]. split; [exact Hloc|].
    split; [exact Hsave|]. rewrite Hload. reflexivity.
Defined.

(** The first start at the Teide, the network in reach. *)
Lemma tracker_first_start_caches_witness :
  exists fs' started,
    Tracker.new (AP := dusk) online empty_disk = (started, fs', inr tt) /\
    is_Some (Tracker.earth_location started) /\
    Tracker.new (AP := dusk) offline fs' = (started, fs', inr tt).
Proof.
  edestruct (tracker_first_start_caches (AP := dusk) online empty_disk
               (answer true (Some (PyFloat 28.3009, PyFloat (-16.5093)%Q)))
               (PyFloat 28.3009) (PyFloat (-16.5093)%Q))
    as (fs' & kvs & Hnew & _ & _ & _ & Hlater);
    [reflexivity
    | apply (bool_decide_unpack _); vm_compute; exact I
    | reflexivity .. |].
  eexists fs', _. split; [exact Hnew|]. split; [eexists; reflexivity|].
  apply Hlater.
Defined.

(** The first start with an answer that has no coordinates. *)
Lemma tracker_start_without_coordinates_witness :
  exists fs' stopped e,
    Tracker.new (AP := dusk) online_no_coordinates empty_disk
      = (stopped, fs', inl e) /\
    Tracker.new (AP := dusk) online fs' = (stopped, fs', inl e).
Proof.
  destruct (tracker_start_without_coordinates (AP := dusk)
              online_no_coordinates empty_disk (answer true None) eq_refl)
    as (fs' & kvs & Hnew & _ & _ & Hlater);
    [apply (bool_decide_unpack _); vm_compute; exact I
    | reflexivity .. |].
  eexists fs', _, _. split; [exact Hnew | apply Hlater].
Defined.



(** A jog button pressed before connecting. *)
Lemma closed_port_nothing_sent_witness :
  Comunicacion.ser
    (Comunicacion.mover int_decimal ascii_codec_error
       (Comunicacion.Response "ok") app_com3 1 0 0)
  = None.
Proof.
  apply (proj1 (proj2 (closed_port_nothing_sent int_decimal ascii_codec_error
                         app_com3 eq_refl))).
Defined.

(** X+ pressed on the connected application, step 200. *)
Lemma mover_sends_iff_witness :
  Comunicacion.wire
    (Comunicacion.mover int_decimal ascii_codec_error
       (Comunicacion.Response "ok") app_connected 1 0 0)
  = [("M X200" ++ Comunicacion.LF)%string].
Proof.
  destruct (mover_sends_iff int_decimal ascii_codec_error
              (Comunicacion.Response "ok") app_connected 1 0 0)
    as [Hiff Hline].
  apply (Hline 200 eq_refl).
  apply Hiff. split; [reflexivity|].
  split; [exists 200; split; reflexivity|].
  split; discriminate.
Defined.

Lemma jog_button_lines_witness :
  Comunicacion.wire
    (Comunicacion.mover int_decimal ascii_codec_error
       (Comunicacion.ReadError "timeout") app_connected 0 (-1) 0)
  = [("M Y-200" ++ Comunicacion.LF)%string].
Proof.
  apply (jog_button_lines int_decimal ascii_codec_error
           (Comunicacion.ReadError "timeout") app_connected 200 eq_refl
           eq_refl eq_refl).
  discriminate.
Defined.

Lemma enviar_parametros_sends_iff_witness :
  Comunicacion.wire
    (Comunicacion.enviar_parametros int_decimal ascii_codec_error
       (Comunicacion.Response "ok") app_connected)
  = [("S 1000 400" ++ Comunicacion.LF)%string].
Proof.
  destruct (enviar_parametros_sends_iff int_decimal ascii_codec_error
              (Comunicacion.Response "ok") app_connected)
    as [Hiff Hline].
  apply (Hline 1000 400 eq_refl eq_refl).
  apply Hiff. split; [reflexivity|].
  split; [exists 1000, 400; repeat split; reflexivity|].
  discriminate.
Defined.

(** Connect on COM3, press X+, disconnect, press X+ again. *)
Lemma jog_session_witness :
  Comunicacion.wire
    (Comunicacion.mover int_decimal ascii_codec_error
       (Comunicacion.Response "ok")
       (Comunicacion.desconectar (inr tt)
          (Comunicacion.mover int_decimal ascii_codec_error
             (Comunicacion.Response "ok") app_connected 1 0 0))
       1 0 0)
  = [("M X200" ++ Comunicacion.LF)%string].
Proof.
  transitivity
    (Comunicacion.wire
       (Comunicacion.mover int_decimal ascii_codec_error
          (Comunicacion.Response "ok") app_connected 1 0 0));
    [|reflexivity].
  apply (jog_session int_decimal ascii_codec_error app_com3
           (Comunicacion.Response "ok") (Comunicacion.Response "ok") 200).
  - discriminate.
  - reflexivity.
  - reflexivity.
  - discriminate.
Defined.

(** Up on the first row goes to the last. *)
Lemma key_down_in_range_witness :
  exists self',
    AdvancedGui.key_down (window 0 None) AdvancedGui.K_UP = inr self' /\
    0 <= AdvancedGui.selected_target_index self' < 9.
Proof.
  destruct (key_down_in_range (AP := dusk) (window 0 None) AdvancedGui.K_UP)
    as (self' & Hkey & _ & Hrange).
  - vm_compute. split; [discriminate | reflexivity].
  - exists self'. split; [exact Hkey | exact Hrange].
Defined.

Lemma key_up_down_inverse_witness :
  exists self',
    AdvancedGui.key_down (window 0 None) AdvancedGui.K_UP = inr self' /\
    AdvancedGui.key_down self' AdvancedGui.K_DOWN = inr (window 0 None).
Proof.
  apply (key_up_down_inverse (AP := dusk) (window 0 None)).
  vm_compute. split; [discriminate | reflexivity].
Defined.

(** Betelgeuse selected and followed. *)
Lemma selected_row_drawn_witness :
  exists k,
    AdvancedGui.draw_target_selector (window 3 (Some "Betelgeuse")) !! k
    = Some {| AdvancedGui.target_index := 3;
              AdvancedGui.text := "► Betelgeuse";
              AdvancedGui.highlight := true |}.
Proof.
  destruct (selected_row_drawn (AP := dusk) (window 3 (Some "Betelgeuse")))
    as (k & target_name & _ & Hname & Hrow & _).
  - vm_compute. split; [discriminate | reflexivity].
  - injection Hname as <-. exists k. exact Hrow.
Defined.

(** Return on the second row follows Vega. *)
Lemma key_return_tracks_witness :
  exists self',
    AdvancedGui.key_down (window 1 None) AdvancedGui.K_RETURN = inr self' /\
    AdvancedGui.current_target self' = Some "Vega" /\
    AdvancedGui.tracking_status self' = "Iniciando seguimiento de Vega".
Proof.
  destruct (key_return_tracks (AP := dusk) (window 1 None) _ eq_refl eq_refl)
    as (target_name & self' & sim' & Hname & Hkey & _ & _ & _ & _ & Hcur
        & Hstatus & _).
  - vm_compute. split; [discriminate | reflexivity].
  - injection Hname as <-. exists self'. auto.
Defined.


Lemma key_space_stops_witness :
  exists self',
    AdvancedGui.key_down (window 1 (Some "Vega")) AdvancedGui.K_SPACE
      = inr self' /\
    AdvancedGui.tracking_status
      (AdvancedGui.update_astronomical_data tick_dusk self')
    = "Seguimiento detenido".
Proof.
  destruct (key_space_stops (AP := dusk) tick_dusk (window 1 (Some "Vega")) _
              eq_refl)
    as (self' & sim' & Hkey & _ & _ & _ & _ & _ & _ & _ & Hstatus).
  exists self'. split; [exact Hkey | exact Hstatus].
Defined.


(** Loading from an empty disk. *)
Lemma cargar_ubicacion_none_witness :
  snd (Ubicacion.cargar_ubicacion (Ubicacion.init (AP := dusk)) empty_disk
         "ubicacion_config.json") = None.
Proof.
  apply (proj1 (cargar_ubicacion_none (AP := dusk) Ubicacion.init empty_disk
                  "ubicacion_config.json")).
  left. reflexivity.
Defined.

(** The details of Quito are asked for; its [EarthLocation] is not
    touched. *)
Lemma obtener_informacion_detallada_frame_witness :
  Ubicacion.earth_location
    (fst (Ubicacion.obtener_informacion_detallada list_index_error surveyed
            (manager_with dusk (PyDict quito)))) = None.
Proof.
  apply (obtener_informacion_detallada_frame (AP := dusk) list_index_error
           surveyed (manager_with dusk (PyDict quito)) eq_refl).
Defined.

(** The details of the Teide: arcgis cannot be reached and here answers. *)
Lemma obtener_informacion_detallada_first_ok_witness :
  exists self' kvs',
    Ubicacion.obtener_informacion_detallada list_index_error surveyed
      (manager_with dusk (PyDict teide_record)) = (self', inr (PyDict kvs')) /\
    assoc "proveedor_detalle" kvs' = Some (PyStr "here") /\
    assoc "codigo_postal" kvs' = Some (PyStr "170135").
Proof.
  destruct (proj1 (obtener_informacion_detallada_first_ok (AP := dusk)
                     list_index_error surveyed
                     (manager_with dusk (PyDict teide_record)) teide_record
                     (PyFloat 28.3009) (PyFloat (-16.5093)%Q)
                     eq_refl eq_refl eq_refl eq_refl)
              ["arcgis"] "here" []
              {| Ubicacion.r_ok := true;
                 Ubicacion.r_address := PyStr "Av. 10 de Agosto, Quito";
                 Ubicacion.postal := PyStr "170135";
                 Ubicacion.neighborhood := PyStr "" |}
              eq_refl)
    as (kvs' & Hrun & _ & Hpostal & _ & Hprov & _).
  - repeat constructor.
  - reflexivity.
  - reflexivity.
  - eexists _, kvs'. split; [exact Hrun|]. split; [exact Hprov | exact Hpostal].
Defined.

(** A new manager with no provider in reach. *)
Lemma obtener_informacion_detallada_offline_witness :
  Ubicacion.obtener_informacion_detallada (AP := dusk) list_index_error offline
    Ubicacion.init = (Ubicacion.init, inr PyNone).
Proof.
  apply (obtener_informacion_detallada_offline (AP := dusk) list_index_error
           offline Ubicacion.init eq_refl).
  repeat constructor.
Defined.

End FurtherRuns.
